(** * Language monitor bot: the classification, extraction, translation
      and dispatch pipeline

    Shallow embedding of [services/language.ts] ([isEnglish],
    [translateText]), [services/image.ts] ([analyzeImage]) and the
    [channel_post] handler of [index.ts].

    Strings are sequences of code units restricted to U+0000..U+00FF;
    [trim], [toLowerCase] and [includes] are the host's string methods on
    that alphabet.  [JSON.parse] is a parameter of the development (class
    [JSON]); [Json.parse] is an instance for it.

    Every [await]ed collaborator (langdetect, the chat-completion client,
    the Telegram API) is an oracle over an abstract world [W]: a call
    consumes the world, settles with a value or an exception, and is
    recorded in a trace. *)

From stdpp Require Import gmap strings list.
From Stdlib Require Import ZArith Ascii String.
From Stdlib Require QArith Qabs.

Set Default Proof Using "Type".
#[local] Set Warnings "-register-all".

(** ** Host strings *)

Module JSString.

(** WhiteSpace and LineTerminator code units below U+0100:
    TAB, LF, VT, FF, CR, SP, NBSP. *)
Definition is_whitespace (c : ascii) : bool :=
  let n := N_of_ascii c in
  ((9 <=? n) && (n <=? 13) || (n =? 32) || (n =? 160))%N.

(** Upper-case letters below U+0100 are A..Z and U+00C0..U+00DE without
    U+00D7; each maps to the code unit 32 above it. *)
Definition lower_char (c : ascii) : ascii :=
  let n := N_of_ascii c in
  if ((65 <=? n) && (n <=? 90)
      || (192 <=? n) && (n <=? 222) && negb (n =? 215))%N
  then ascii_of_N (n + 32) else c.

Fixpoint toLowerCase (s : string) : string :=
  match s with
  | EmptyString => EmptyString
  | String c s' => String (lower_char c) (toLowerCase s')
  end.

Fixpoint trimStart (s : string) : string :=
  match s with
  | String c s' => if is_whitespace c then trimStart s' else s
  | EmptyString => EmptyString
  end.

Fixpoint trimEnd (s : string) : string :=
  match s with
  | EmptyString => EmptyString
  | String c s' =>
      match trimEnd s' with
      | EmptyString => if is_whitespace c then EmptyString
                       else String c EmptyString
      | t => String c t
      end
  end.

Definition trim (s : string) : string := trimEnd (trimStart s).

(** [s.includes(sub)] *)
Fixpoint includes (s sub : string) : bool :=
  String.prefix sub s ||
  match s with
  | EmptyString => false
  | String _ s' => includes s' sub
  end.

(** ToBoolean on a string: [s] is truthy unless it is empty. *)
Definition nonempty (s : string) : bool :=
  match s with EmptyString => false | String _ _ => true end.

(** [o?.f() || d] for a [string | null | undefined] receiver [o]. *)
Definition or_default (o : option string) (d : string) : string :=
  match o with
  | Some s => if nonempty s then s else d
  | None => d
  end.

Definition quote : string := String "034"%char EmptyString.
Definition newline : string := String "010"%char EmptyString.

End JSString.

(** ** Host values *)

Inductive JSValue : Type :=
| JSUndefined
| JSNull
| JSBool (b : bool)
| JSNumber (q : QArith_base.Q)
| JSStr (s : string)
| JSArray (items : list JSValue)
| JSObject (props : gmap string JSValue).

(** A number stands for the binary64 value nearest to [q]; that value is
    zero exactly when |q| is at most half the least subnormal, 2^-1075. *)
Definition number_is_zero (q : QArith_base.Q) : bool :=
  QArith_base.Qle_bool (Qabs.Qabs q)
    (QArith_base.Qpower (QArith_base.Qmake 2 1) (-1075)).

(** ToBoolean *)
Definition truthy (v : JSValue) : bool :=
  match v with
  | JSUndefined | JSNull => false
  | JSBool b => b
  | JSNumber q => negb (number_is_zero q)
  | JSStr s => JSString.nonempty s
  | JSArray _ | JSObject _ => true
  end.

(** [a || b] *)
Definition js_or (a b : JSValue) : JSValue := if truthy a then a else b.

(** The value of [v.key] when [v] is neither [null] nor [undefined] and
    [key] is on no prototype. *)
Definition property (v : JSValue) (key : string) : JSValue :=
  match v with
  | JSObject props => default JSUndefined (props !! key)
  | _ => JSUndefined
  end.

(** Whether ToString succeeds on [v], as in a template literal
    [`${v}`].  A primitive always converts.  An object converts through
    [Object.prototype.toString] unless it has an own [toString]
    property: a value read by [JSON.parse] is never callable, and
    [valueOf] gives back the object, so the conversion ends in a
    TypeError.  An array converts through [join], which converts each
    element other than [null] and [undefined]. *)
Fixpoint converts (v : JSValue) : bool :=
  match v with
  | JSObject props =>
      match props !! "toString" with
      | Some _ => false
      | None => true
      end
  | JSArray items => forallb converts items
  | JSUndefined | JSNull | JSBool _ | JSNumber _ | JSStr _ => true
  end.

(** [v === false] *)
Definition is_false (v : JSValue) : bool :=
  match v with JSBool false => true | _ => false end.

Inductive exn : Type :=
| TypeError
| SyntaxError
| ServiceError (message : string).

Inductive Completion (A : Type) : Type :=
| Normal (a : A)
| Throw (e : exn).
Arguments Normal {A} a.
Arguments Throw {A} e.

(** [JSON.parse]: [None] is a thrown SyntaxError. *)
Class JSON := { JSON_parse : string -> option JSValue }.

(** ** Collaborators *)

Module LanguageDetection.
Record t := { lang : string; prob : QArith_base.Q }.
End LanguageDetection.

(** The three request shapes sent to [chat.completions.create].  The
    prompt of each is a template literal over the payload, so the payload
    determines the request. *)
Inductive ChatRequest : Type :=
| ClassifyRequest (text : string)
| VisionRequest (imageUrl : string)
| TranslateRequest (text : JSValue).

Module ChatCompletion.
(** [choices[i].message.content : string | null] *)
Record Choice := { content : option string }.
Record t := { choices : list Choice }.
End ChatCompletion.

Module File.
Record t := { file_path : option string }.
End File.

Module PhotoSize.
Record t := { file_id : string }.
End PhotoSize.

Module Message.
Record t := {
  message_id : Z;
  chat_id : Z;
  text : option string;
  photo : option (list PhotoSize.t)
}.
End Message.

Inductive Event : Type :=
| Detect (text : string)
| ChatCreate (request : ChatRequest)
| GetFile (file_id : string)
| SendMessage (chat_id : Z) (text : string) (reply_to_message_id : Z)
| ConsoleError (label : string)
| ConsoleLog (label : string).

Record Services (W : Type) := {
  (** [langdetect.detect]; [None] is a null result *)
  langdetect_detect :
    string -> W -> Completion (option (list LanguageDetection.t)) * W;
  (** [openaiClient.chat.completions.create] *)
  chat_completions_create :
    ChatRequest -> W -> Completion ChatCompletion.t * W;
  (** [ctx.api.getFile] *)
  api_getFile : string -> W -> Completion File.t * W;
  (** [ctx.api.sendMessage] *)
  api_sendMessage : Z -> string -> Z -> W -> Completion unit * W
}.
Arguments langdetect_detect {W}.
Arguments chat_completions_create {W}.
Arguments api_getFile {W}.
Arguments api_sendMessage {W}.

(** ** The monad of asynchronous computations *)

Record Machine (W : Type) := mkMachine { world : W; trace : list Event }.
Arguments mkMachine {W}.
Arguments world {W}.
Arguments trace {W}.

Definition Async (W A : Type) : Type := Machine W -> Completion A * Machine W.

Section Monad.
Context {W : Type}.

Definition ret {A} (a : A) : Async W A := fun st => (Normal a, st).

Definition throw {A} (e : exn) : Async W A := fun st => (Throw e, st).

Definition bind {A B} (m : Async W A) (k : A -> Async W B) : Async W B :=
  fun st =>
    match m st with
    | (Normal a, st') => k a st'
    | (Throw e, st') => (Throw e, st')
    end.

(** [try { m } catch (error) { handler }] *)
Definition try_catch {A} (m : Async W A) (handler : exn -> Async W A)
  : Async W A :=
  fun st =>
    match m st with
    | (Normal a, st') => (Normal a, st')
    | (Throw e, st') => handler e st'
    end.

(** A call to a collaborator: logged, then settled by the oracle. *)
Definition perform {A} (ev : Event) (call : W -> Completion A * W)
  : Async W A :=
  fun st =>
    let (r, w') := call (world st) in
    (r, {| world := w'; trace := trace st ++ [ev] |}).

Definition console_error (label : string) : Async W unit :=
  fun st => (Normal tt, {| world := world st;
                           trace := trace st ++ [ConsoleError label] |}).

Definition console_log (label : string) : Async W unit :=
  fun st => (Normal tt, {| world := world st;
                           trace := trace st ++ [ConsoleLog label] |}).

End Monad.

Notation "'let!' x ':=' m 'in' k" := (bind m (fun x => k))
  (at level 10, x name, m at level 100, k at level 200).
Notation "'do!' m 'in' k" := (bind m (fun _ => k))
  (at level 10, m at level 100, k at level 200).

(** ** The pipeline *)

Module Analysis.
(** The value [analyzeImage] resolves to.  [text] is whatever
    [result.text || ''] evaluates to. *)
Record t := { text : JSValue; isEnglish : bool }.
End Analysis.

Section Pipeline.
Context {W : Type} `{JSON} (svc : Services W).
Variable TELEGRAM_BOT_TOKEN : string.

Import JSString.

Definition detect (text : string) : Async W _ :=
  perform (Detect text) (langdetect_detect svc text).

Definition create (request : ChatRequest) : Async W _ :=
  perform (ChatCreate request) (chat_completions_create svc request).

Definition getFile (file_id : string) : Async W _ :=
  perform (GetFile file_id) (api_getFile svc file_id).

Definition sendMessage (chat_id : Z) (text : string) (reply_to : Z)
  : Async W unit :=
  perform (SendMessage chat_id text reply_to)
          (api_sendMessage svc chat_id text reply_to).

(** [response.choices[0].message.content]: reading [.message] of a
    missing first choice throws. *)
Definition first_content (response : ChatCompletion.t)
  : Async W (option string) :=
  match ChatCompletion.choices response with
  | [] => throw TypeError
  | choice :: _ => ret (ChatCompletion.content choice)
  end.

(** [detections && detections.length > 0 && detections[0].lang === 'en'] *)
Definition top_is_en (detections : option (list LanguageDetection.t))
  : bool :=
  match detections with
  | Some (d :: _) => String.eqb (LanguageDetection.lang d) "en"
  | Some [] | None => false
  end.

(** [const result = content?.trim().toLowerCase() || '';
     return result.includes('english')] *)
Definition remote_verdict (content : option string) : bool :=
  let result :=
    or_default (option_map (fun c => toLowerCase (trim c)) content) "" in
  includes result "english".

Definition isEnglish (text : string) : Async W bool :=
  try_catch
    (let! detections := detect text in
     if top_is_en detections then ret true
     else
       let! response := create (ClassifyRequest text) in
       let! content := first_content response in
       ret (remote_verdict content))
    (fun error =>
       do! console_error "Error detecting language:" in
       ret true).

(** Evaluating a template literal that embeds [v]: the conversion of
    [v] to a string happens before the call that takes the prompt. *)
Definition template (v : JSValue) : Async W unit :=
  if converts v then ret tt else throw TypeError.

Definition translateText (text : JSValue) : Async W string :=
  try_catch
    (do! template text in
     let! response := create (TranslateRequest text) in
     let! content := first_content response in
     ret (or_default (option_map trim content) "Translation error"))
    (fun error =>
       do! console_error "Error translating text:" in
       ret "Error translating text.").

(** The literal [{"text":"","isEnglish":true}] of the source. *)
Definition default_response : string :=
  "{" +:+ quote +:+ "text" +:+ quote +:+ ":" +:+ quote +:+ quote +:+ ","
      +:+ quote +:+ "isEnglish" +:+ quote +:+ ":true}".

(** [content?.trim() || default_response] *)
Definition response_content (content : option string) : string :=
  or_default (option_map trim content) default_response.

(** [JSON.parse(s)] as a computation. *)
Definition parse (s : string) : Async W JSValue :=
  match JSON_parse s with
  | Some v => ret v
  | None => throw SyntaxError
  end.

(** [v.key] for the keys [text] and [isEnglish], which no prototype
    defines: an own property of an object, [undefined] on any other
    value, a TypeError on [null] and [undefined]. *)
Definition get (v : JSValue) (key : string) : Async W JSValue :=
  match v with
  | JSNull | JSUndefined => throw TypeError
  | _ => ret (property v key)
  end.

Definition analyzeImage (imageUrl : string) : Async W Analysis.t :=
  try_catch
    (let! response := create (VisionRequest imageUrl) in
     let! content := first_content response in
     let responseContent := response_content content in
     try_catch
       (let! result := parse responseContent in
        let! text := get result "text" in
        let! flag := get result "isEnglish" in
        ret {| Analysis.text := js_or text (JSStr "");
               Analysis.isEnglish := if is_false flag then false else true |})
       (fun parseError =>
          do! console_error "Error parsing JSON response from OpenAI:" in
          if (0 <? String.length responseContent)%nat
             && negb (includes responseContent "NO_TEXT_FOUND")
          then
            let! isTextEnglish := isEnglish responseContent in
            ret {| Analysis.text := JSStr responseContent;
                   Analysis.isEnglish := isTextEnglish |}
          else
            ret {| Analysis.text := JSStr ""; Analysis.isEnglish := true |}))
    (fun error =>
       do! console_error "Error analyzing image with OpenAI:" in
       ret {| Analysis.text := JSStr ""; Analysis.isEnglish := true |}).

(** [`Translation: ${translation}\n\nPlease, refrain ...`] *)
Definition reply_text (translation : string) : string :=
  "Translation: " +:+ translation +:+ newline +:+ newline
    +:+ "Please, refrain from usage of any language except English".

(** [`https://api.telegram.org/file/bot${TELEGRAM_BOT_TOKEN}/${file_path}`] *)
Definition file_url (file_path : string) : string :=
  "https://api.telegram.org/file/bot" +:+ TELEGRAM_BOT_TOKEN
    +:+ "/" +:+ file_path.

(** The [if (message.text) { ... }] block of the handler. *)
Definition handle_text (message : Message.t) : Async W unit :=
  match Message.text message with
  | Some text =>
      if JSString.nonempty text then
        let! english := isEnglish text in
        if negb english then
          let! translation := translateText (JSStr text) in
          sendMessage (Message.chat_id message) (reply_text translation)
                      (Message.message_id message)
        else ret tt
      else ret tt
  | None => ret tt
  end.

(** The [if (message.photo && message.photo.length > 0) { ... }] block. *)
Definition handle_photo (message : Message.t) : Async W unit :=
  match Message.photo message with
  | Some photos =>
      match last photos with
      | Some photo =>
          let! fileInfo := getFile (PhotoSize.file_id photo) in
          match File.file_path fileInfo with
          | Some file_path =>
              if JSString.nonempty file_path then
                let! r := analyzeImage (file_url file_path) in
                if truthy (Analysis.text r) && negb (Analysis.isEnglish r)
                then
                  let! translation := translateText (Analysis.text r) in
                  sendMessage (Message.chat_id message)
                              (reply_text translation)
                              (Message.message_id message)
                else ret tt
              else console_error "No file path found for image"
          | None => console_error "No file path found for image"
          end
      | None => ret tt
      end
  | None => ret tt
  end.

(** [bot.on('channel_post', ...)]; the argument is
    [ctx.update.channel_post]. *)
Definition channel_post (post : option Message.t) : Async W unit :=
  match post with
  | None => console_log "Received empty channel post"
  | Some message =>
      do! handle_text message in
      handle_photo message
  end.

End Pipeline.

(** ** An instance of [JSON.parse]

    A recursive-descent reader of the JSON grammar (ECMA-404).  A [\u]
    escape above U+00FF denotes a code unit outside the string alphabet
    used here; this reader rejects it, so it stands for [JSON.parse] on
    the texts that have no such escape.  The properties below hold for
    every instance of [JSON]; this one serves the concrete runs, whose
    texts have no escape at all. *)

Module Json.

Definition input := list ascii.

Definition code (c : ascii) : N := N_of_ascii c.

Definition is_ws (c : ascii) : bool :=
  ((code c =? 32) || (code c =? 9) || (code c =? 10) || (code c =? 13))%N.

Definition is_digit (c : ascii) : bool :=
  ((48 <=? code c) && (code c <=? 57))%N.

Fixpoint skip_ws (s : input) : input :=
  match s with
  | c :: r => if is_ws c then skip_ws r else s
  | [] => []
  end.

Definition hex_digit (c : ascii) : option N :=
  let n := code c in
  if ((48 <=? n) && (n <=? 57))%N then Some (n - 48)%N
  else if ((65 <=? n) && (n <=? 70))%N then Some (n - 55)%N
  else if ((97 <=? n) && (n <=? 102))%N then Some (n - 87)%N
  else None.

Definition hex4 (a b c d : ascii) : option N :=
  match hex_digit a, hex_digit b, hex_digit c, hex_digit d with
  | Some x, Some y, Some z, Some w =>
      Some (((x * 16 + y) * 16 + z) * 16 + w)%N
  | _, _, _, _ => None
  end.

(** The character an escape letter denotes. *)
Definition escape (c : ascii) : option ascii :=
  let n := code c in
  if (n =? 34)%N then Some c                      (* quotation mark *)
  else if (n =? 92)%N then Some c                 (* reverse solidus *)
  else if (n =? 47)%N then Some c                 (* solidus *)
  else if (n =? 98)%N then Some "008"%char        (* b *)
  else if (n =? 102)%N then Some "012"%char       (* f *)
  else if (n =? 110)%N then Some "010"%char       (* n *)
  else if (n =? 114)%N then Some "013"%char       (* r *)
  else if (n =? 116)%N then Some "009"%char       (* t *)
  else None.

(** The characters of a string after its opening quotation mark. *)
Fixpoint string_body (s : input) : option (string * input) :=
  match s with
  | [] => None
  | c :: r =>
      if (code c =? 34)%N then Some (EmptyString, r)
      else if (code c =? 92)%N then
        match r with
        | e :: r1 =>
            if (code e =? 117)%N then
              match r1 with
              | h1 :: h2 :: h3 :: h4 :: r2 =>
                  match hex4 h1 h2 h3 h4 with
                  | Some n =>
                      if (n <? 256)%N then
                        match string_body r2 with
                        | Some (t, rest) => Some (String (ascii_of_N n) t, rest)
                        | None => None
                        end
                      else None
                  | None => None
                  end
              | _ => None
              end
            else
              match escape e with
              | Some x =>
                  match string_body r1 with
                  | Some (t, rest) => Some (String x t, rest)
                  | None => None
                  end
              | None => None
              end
        | [] => None
        end
      else if (code c <? 32)%N then None
      else
        match string_body r with
        | Some (t, rest) => Some (String c t, rest)
        | None => None
        end
  end.

Fixpoint digits (s : input) : list N * input :=
  match s with
  | c :: r =>
      if is_digit c then let (ds, rest) := digits r in
                         ((code c - 48)%N :: ds, rest)
      else ([], s)
  | [] => ([], [])
  end.

Definition decimal (ds : list N) : Z :=
  fold_left (fun acc d => (acc * 10 + Z.of_N d)%Z) ds 0%Z.

(** The integer part: a single zero, or digits not starting with zero. *)
Definition int_part (s : input) : option (list N * input) :=
  match digits s with
  | ([], _) => None
  | ((0%N :: _ :: _), _) => None
  | (ds, rest) => Some (ds, rest)
  end.

Definition frac_part (s : input) : option (list N * input) :=
  match s with
  | c :: r =>
      if (code c =? 46)%N then
        match digits r with
        | ([], _) => None
        | (ds, rest) => Some (ds, rest)
        end
      else Some ([], s)
  | [] => Some ([], [])
  end.

Definition exp_part (s : input) : option (Z * input) :=
  match s with
  | c :: r =>
      if ((code c =? 101) || (code c =? 69))%N then
        let '(neg, r1) :=
          match r with
          | sg :: r' =>
              if (code sg =? 45)%N then (true, r')
              else if (code sg =? 43)%N then (false, r')
              else (false, r)
          | [] => (false, r)
          end in
        match digits r1 with
        | ([], _) => None
        | (ds, rest) =>
            Some (if neg then (- decimal ds)%Z else decimal ds, rest)
        end
      else Some (0%Z, s)
  | [] => Some (0%Z, [])
  end.

(** [m * 10^e] as a rational. *)
Definition scale (m e : Z) : QArith_base.Q :=
  if (0 <=? e)%Z then QArith_base.Qmake (m * 10 ^ e) 1
  else QArith_base.Qmake m (Z.to_pos (10 ^ (- e))).

Definition number (s : input) : option (JSValue * input) :=
  let '(neg, s1) :=
    match s with
    | c :: r => if (code c =? 45)%N then (true, r) else (false, s)
    | [] => (false, s)
    end in
  match int_part s1 with
  | Some (ip, s2) =>
      match frac_part s2 with
      | Some (fp, s3) =>
          match exp_part s3 with
          | Some (e, s4) =>
              let m := decimal (ip ++ fp) in
              let m := if neg then (- m)%Z else m in
              Some (JSNumber (scale m (e - Z.of_nat (List.length fp))), s4)
          | None => None
          end
      | None => None
      end
  | None => None
  end.

(** [keyword k v s]: the input starts with the literal [k]. *)
Fixpoint literal (k : input) (s : input) : option input :=
  match k, s with
  | [], _ => Some s
  | a :: k', b :: s' => if Ascii.eqb a b then literal k' s' else None
  | _ :: _, [] => None
  end.

Definition keyword (k : string) (v : JSValue) (s : input)
  : option (JSValue * input) :=
  match literal (list_ascii_of_string k) s with
  | Some rest => Some (v, rest)
  | None => None
  end.

(** [value] reads one value after optional white space; [elements] the
    rest of an array after its first bracket, [members] the rest of an
    object.  A later member overrides an earlier one of the same name. *)
Fixpoint value (fuel : nat) (s : input) : option (JSValue * input) :=
  match fuel with
  | O => None
  | S fuel =>
      match skip_ws s with
      | [] => None
      | c :: r =>
          if (code c =? 123)%N then                       (* left brace *)
            match skip_ws r with
            | d :: r' =>
                if (code d =? 125)%N then Some (JSObject ∅, r')
                else members fuel (d :: r') ∅
            | [] => None
            end
          else if (code c =? 91)%N then                   (* left bracket *)
            match skip_ws r with
            | d :: r' =>
                if (code d =? 93)%N then Some (JSArray [], r')
                else elements fuel (d :: r') []
            | [] => None
            end
          else if (code c =? 34)%N then
            match string_body r with
            | Some (t, rest) => Some (JSStr t, rest)
            | None => None
            end
          else if (code c =? 116)%N then keyword "true" (JSBool true) (c :: r)
          else if (code c =? 102)%N then keyword "false" (JSBool false) (c :: r)
          else if (code c =? 110)%N then keyword "null" JSNull (c :: r)
          else number (c :: r)
      end
  end
with elements (fuel : nat) (s : input) (acc : list JSValue)
  : option (JSValue * input) :=
  match fuel with
  | O => None
  | S fuel =>
      match value fuel s with
      | Some (v, rest) =>
          match skip_ws rest with
          | c :: r =>
              if (code c =? 93)%N then Some (JSArray (acc ++ [v]), r)
              else if (code c =? 44)%N then elements fuel r (acc ++ [v])
              else None
          | [] => None
          end
      | None => None
      end
  end
with members (fuel : nat) (s : input) (acc : gmap string JSValue)
  : option (JSValue * input) :=
  match fuel with
  | O => None
  | S fuel =>
      match skip_ws s with
      | q :: r =>
          if (code q =? 34)%N then
            match string_body r with
            | Some (key, r1) =>
                match skip_ws r1 with
                | colon :: r2 =>
                    if (code colon =? 58)%N then
                      match value fuel r2 with
                      | Some (v, rest) =>
                          match skip_ws rest with
                          | c :: r3 =>
                              if (code c =? 125)%N
                              then Some (JSObject (<[key := v]> acc), r3)
                              else if (code c =? 44)%N
                              then members fuel r3 (<[key := v]> acc)
                              else None
                          | [] => None
                          end
                      | None => None
                      end
                    else None
                | [] => None
                end
            | None => None
            end
          else None
      | [] => None
      end
  end.

(** One value, surrounded by optional white space, and nothing else. *)
Definition parse (s : string) : option JSValue :=
  let inp := list_ascii_of_string s in
  match value (2 * List.length inp + 2) inp with
  | Some (v, rest) =>
      match skip_ws rest with
      | [] => Some v
      | _ :: _ => None
      end
  | None => None
  end.

End Json.

Definition host_json : JSON := {| JSON_parse := Json.parse |}.


(** ** Scripted collaborators

    Services over the one-point world whose detector and chat client
    answer from a fixed script; used to run the pipeline on concrete
    inputs. *)

Module Script.

Definition reply (content : option string) : ChatCompletion.t :=
  {| ChatCompletion.choices :=
       [ {| ChatCompletion.content := content |} ] |}.

Definition services
    (detector : Completion (option (list LanguageDetection.t)))
    (remote : ChatRequest -> Completion ChatCompletion.t)
  : Services unit :=
  {| langdetect_detect := fun _ w => (detector, w);
     chat_completions_create := fun request w => (remote request, w);
     api_getFile := fun _ w =>
       (Normal {| File.file_path := Some "photos/file_1.jpg" |}, w);
     api_sendMessage := fun _ _ _ w => (Normal tt, w) |}.

(** A chat client that answers by the kind of the request. *)
Definition by_kind (classify vision translate : Completion ChatCompletion.t)
    (request : ChatRequest) : Completion ChatCompletion.t :=
  match request with
  | ClassifyRequest _ => classify
  | VisionRequest _ => vision
  | TranslateRequest _ => translate
  end.

Definition unavailable : Completion ChatCompletion.t :=
  Throw (ServiceError "service unavailable").

Definition init : Machine unit := {| world := tt; trace := [] |}.

Definition guess (lang : string) : LanguageDetection.t :=
  {| LanguageDetection.lang := lang;
     LanguageDetection.prob := QArith_base.Qmake 9 10 |}.

(** [{"text":<text>,"isEnglish":<flag>}] *)
Definition structured (text flag : string) : string :=
  "{" +:+ JSString.quote +:+ "text" +:+ JSString.quote +:+ ":"
      +:+ JSString.quote +:+ text +:+ JSString.quote +:+ ","
      +:+ JSString.quote +:+ "isEnglish" +:+ JSString.quote +:+ ":"
      +:+ flag +:+ "}".

(** [{"text":{"toString":1},"isEnglish":false}]: a structured reply
    whose text is an object that does not convert to a string. *)
Definition unconvertible : string :=
  "{" +:+ JSString.quote +:+ "text" +:+ JSString.quote +:+ ":{"
      +:+ JSString.quote +:+ "toString" +:+ JSString.quote +:+ ":1},"
      +:+ JSString.quote +:+ "isEnglish" +:+ JSString.quote +:+ ":false}".

(** Services whose Telegram calls settle as given. *)
Definition telegram
    (detector : Completion (option (list LanguageDetection.t)))
    (remote : ChatRequest -> Completion ChatCompletion.t)
    (file : Completion File.t) (sent : Completion unit)
  : Services unit :=
  {| langdetect_detect := fun _ w => (detector, w);
     chat_completions_create := fun request w => (remote request, w);
     api_getFile := fun _ w => (file, w);
     api_sendMessage := fun _ _ _ w => (sent, w) |}.

End Script.

(** The same services with another chat-completion client. *)
Definition with_remote {W} (svc : Services W)
    (remote : ChatRequest -> W -> Completion ChatCompletion.t * W)
  : Services W :=
  {| langdetect_detect := langdetect_detect svc;
     chat_completions_create := remote;
     api_getFile := api_getFile svc;
     api_sendMessage := api_sendMessage svc |}.

(** The replies and the translation requests recorded in a trace. *)
Definition replies (t : list Event) : list (Z * string * Z) :=
  omap (fun ev => match ev with
                  | SendMessage chat text reply_to => Some (chat, text, reply_to)
                  | _ => None
                  end) t.

Definition translations (t : list Event) : list JSValue :=
  omap (fun ev => match ev with
                  | ChatCreate (TranslateRequest text) => Some text
                  | _ => None
                  end) t.

Definition remote_calls (t : list Event) : list ChatRequest :=
  omap (fun ev => match ev with
                  | ChatCreate request => Some request
                  | _ => None
                  end) t.

(** The detector calls and the file requests recorded in a trace. *)
Definition detector_calls (t : list Event) : list string :=
  omap (fun ev => match ev with
                  | Detect text => Some text
                  | _ => None
                  end) t.

Definition file_requests (t : list Event) : list string :=
  omap (fun ev => match ev with
                  | GetFile file_id => Some file_id
                  | _ => None
                  end) t.

(** ** The test double of [isEnglish]

    The implementation given to [jest.fn()] in [language.test.ts]: the
    mocked detector first, then a fixed rule on the text, no remote
    call. *)

Section TestDouble.
Context {W : Type} (svc : Services W).

Definition mockIsEnglish (text : string) : Async W bool :=
  try_catch
    (let! detections := detect svc text in
     if top_is_en detections then ret true
     else if JSString.includes text "Bonjour" then ret false
     else ret true)
    (fun error => ret true).

End TestDouble.

(** * Properties *)

(** ** Strings and values *)

Lemma or_default_empty o : JSString.or_default o "" = default "" o.
Proof. destruct o as [[|c s]|]; reflexivity. Qed.

Lemma or_default_nonempty o d :
  JSString.nonempty d = true ->
  JSString.nonempty (JSString.or_default o d) = true.
Proof.
  intros Hd. destruct o as [s|]; simpl; [|exact Hd].
  destruct (JSString.nonempty s) eqn:E; [exact E | exact Hd].
Qed.

Lemma nonempty_length s :
  JSString.nonempty s = true -> (0 <? String.length s)%nat = true.
Proof. destruct s; [discriminate | reflexivity]. Qed.

Lemma response_content_nonempty content :
  (0 <? String.length (response_content content))%nat = true.
Proof. apply nonempty_length, or_default_nonempty. reflexivity. Qed.

Lemma remote_verdict_content c :
  remote_verdict (Some c)
  = JSString.includes (JSString.toLowerCase (JSString.trim c)) "english".
Proof. unfold remote_verdict. rewrite or_default_empty. reflexivity. Qed.

Lemma remote_verdict_missing : remote_verdict None = false.
Proof. reflexivity. Qed.

Lemma remote_verdict_blank c :
  JSString.trim c = "" -> remote_verdict (Some c) = false.
Proof. intros E. rewrite remote_verdict_content, E. reflexivity. Qed.

Lemma truthy_string s : truthy (JSStr s) = JSString.nonempty s.
Proof. reflexivity. Qed.

Lemma js_or_string s : js_or (JSStr s) (JSStr "") = JSStr s.
Proof. destruct s; reflexivity. Qed.

Lemma is_false_inv v : is_false v = true <-> v = JSBool false.
Proof.
  split; [|intros ->; reflexivity].
  destruct v as [| |[]| | | |]; simpl; congruence.
Qed.

Lemma is_false_property props :
  is_false (property (JSObject props) "isEnglish") = true
  <-> props !! "isEnglish" = Some (JSBool false).
Proof.
  rewrite is_false_inv. simpl.
  destruct (props !! "isEnglish") as [v|]; simpl; split; congruence.
Qed.

(** ** Traces *)

Lemma replies_app t u : replies (t ++ u) = replies t ++ replies u.
Proof. apply omap_app. Qed.

Lemma translations_app t u :
  translations (t ++ u) = translations t ++ translations u.
Proof. apply omap_app. Qed.

Lemma remote_calls_app t u :
  remote_calls (t ++ u) = remote_calls t ++ remote_calls u.
Proof. apply omap_app. Qed.

(** ** Runs of the classifier and the translator *)

Section Runs.
Context {W : Type} (svc : Services W).

(** One run of [isEnglish], path by path. *)
Lemma isEnglish_run text st :
  isEnglish svc text st =
  match langdetect_detect svc text (world st) with
  | (Throw _, w1) =>
      (Normal true,
       mkMachine w1 (trace st ++ [Detect text;
                                  ConsoleError "Error detecting language:"]))
  | (Normal detections, w1) =>
      if top_is_en detections
      then (Normal true, mkMachine w1 (trace st ++ [Detect text]))
      else
        let called := trace st ++ [Detect text;
                                   ChatCreate (ClassifyRequest text)] in
        match chat_completions_create svc (ClassifyRequest text) w1 with
        | (Normal {| ChatCompletion.choices := choice :: _ |}, w2) =>
            (Normal (remote_verdict (ChatCompletion.content choice)),
             mkMachine w2 called)
        | (Normal {| ChatCompletion.choices := [] |}, w2)
        | (Throw _, w2) =>
            (Normal true,
             mkMachine w2
               (called ++ [ConsoleError "Error detecting language:"]))
        end
  end.
Proof.
  unfold isEnglish, try_catch, bind, detect, create, perform. simpl.
  destruct (langdetect_detect svc text (world st)) as [[ds|e] w1]; simpl.
  - destruct (top_is_en ds); simpl; [reflexivity|].
    destruct (chat_completions_create svc (ClassifyRequest text) w1)
      as [[[[|c cs]]|e] w2]; simpl;
      rewrite <- ?app_assoc; reflexivity.
  - rewrite <- app_assoc. reflexivity.
Qed.

Lemma isEnglish_total text st :
  exists b st', isEnglish svc text st = (Normal b, st').
Proof.
  rewrite isEnglish_run.
  destruct (langdetect_detect svc text (world st)) as [[ds|e] w1];
    [destruct (top_is_en ds);
     [|destruct (chat_completions_create svc (ClassifyRequest text) w1)
         as [[[[|c cs]]|e] w2]]|];
    eauto.
Qed.

(** [isEnglish] sends no reply and asks for no translation. *)
Lemma isEnglish_quiet text st r st' :
  isEnglish svc text st = (r, st') ->
  replies (trace st') = replies (trace st)
  /\ translations (trace st') = translations (trace st).
Proof.
  rewrite isEnglish_run.
  destruct (langdetect_detect svc text (world st)) as [[ds|e] w1];
    [destruct (top_is_en ds);
     [|destruct (chat_completions_create svc (ClassifyRequest text) w1)
         as [[[[|c cs]]|e] w2]]|];
    simpl; intros [= <- <-]; simpl;
    rewrite ?replies_app, ?translations_app; simpl;
    rewrite ?app_nil_r; auto.
Qed.

(** One run of [translateText]: the text is converted for the prompt
    first; when that throws, no call is made. *)
Lemma translateText_run text st :
  translateText svc text st =
  if converts text then
    let called := trace st ++ [ChatCreate (TranslateRequest text)] in
    match chat_completions_create svc (TranslateRequest text) (world st) with
    | (Normal {| ChatCompletion.choices := choice :: _ |}, w1) =>
        (Normal (JSString.or_default
                   (option_map JSString.trim (ChatCompletion.content choice))
                   "Translation error"),
         mkMachine w1 called)
    | (Normal {| ChatCompletion.choices := [] |}, w1)
    | (Throw _, w1) =>
        (Normal "Error translating text.",
         mkMachine w1 (called ++ [ConsoleError "Error translating text:"]))
    end
  else
    (Normal "Error translating text.",
     mkMachine (world st)
       (trace st ++ [ConsoleError "Error translating text:"])).
Proof.
  unfold translateText, template, try_catch, bind, create, perform.
  destruct (converts text); simpl; [|reflexivity].
  destruct (chat_completions_create svc (TranslateRequest text) (world st))
    as [[[[|c cs]]|e] w1]; reflexivity.
Qed.

Lemma translateText_total text st :
  exists t st', translateText svc text st = (Normal t, st').
Proof.
  rewrite translateText_run. destruct (converts text); [|eauto].
  destruct (chat_completions_create svc (TranslateRequest text) (world st))
    as [[[[|c cs]]|e] w1]; simpl; eauto.
Qed.

(** [translateText] sends no reply and issues one translation request,
    or none when the text does not convert. *)
Lemma translateText_trace text st r st' :
  translateText svc text st = (r, st') ->
  replies (trace st') = replies (trace st)
  /\ translations (trace st')
     = translations (trace st) ++ (if converts text then [text] else []).
Proof.
  rewrite translateText_run. destruct (converts text).
  2:{ intros [= <- <-]. simpl. rewrite replies_app, translations_app. simpl.
      rewrite !app_nil_r. auto. }
  destruct (chat_completions_create svc (TranslateRequest text) (world st))
    as [[[[|c cs]]|e] w1]; simpl; intros [= <- <-]; simpl;
    rewrite ?replies_app, ?translations_app; simpl;
    rewrite ?app_nil_r; auto.
Qed.

End Runs.

(** ** The classifier *)

Section Classifier.
Context {W : Type} (svc : Services W).

(** A [false] verdict has one origin: the detector returned without the
    target code on top and the first choice of the remote reply lacks
    the token. *)
Lemma isEnglish_false_inv text st st' :
  isEnglish svc text st = (Normal false, st') ->
  exists detections w1 choice rest w2,
    langdetect_detect svc text (world st) = (Normal detections, w1)
    /\ top_is_en detections = false
    /\ chat_completions_create svc (ClassifyRequest text) w1
       = (Normal {| ChatCompletion.choices := choice :: rest |}, w2)
    /\ remote_verdict (ChatCompletion.content choice) = false.
Proof.
  rewrite isEnglish_run.
  destruct (langdetect_detect svc text (world st)) as [[ds|e] w1];
    [|discriminate].
  destruct (top_is_en ds) eqn:Etop; [discriminate|].
  destruct (chat_completions_create svc (ClassifyRequest text) w1)
    as [[[[|c cs]]|e] w2] eqn:Echat; simpl; try discriminate.
  intros [= Hv _]. exists ds, w1, c, cs, w2. auto.
Qed.

(** C1 (amended): when the local detector returns and its top guess is
    not the target code (or the result is null or empty), [isEnglish]
    issues the remote check and, on a reply with a first choice, returns
    true if and only if the token [english] is a substring of the
    trimmed, lower-cased content; a missing or empty content yields
    false.  When the local detector throws, [isEnglish] returns true
    and issues no remote check. *)
Theorem isEnglish_fallback text st r w1 :
  langdetect_detect svc text (world st) = (r, w1) ->
  match r with
  | Throw _ =>
      isEnglish svc text st
      = (Normal true,
         mkMachine w1 (trace st ++ [Detect text;
                                    ConsoleError "Error detecting language:"]))
  | Normal detections =>
      top_is_en detections = false ->
      forall content rest w2,
        chat_completions_create svc (ClassifyRequest text) w1
        = (Normal {| ChatCompletion.choices :=
                       {| ChatCompletion.content := content |} :: rest |},
           w2) ->
        exists b,
          isEnglish svc text st
          = (Normal b,
             mkMachine w2 (trace st ++ [Detect text;
                                        ChatCreate (ClassifyRequest text)]))
          /\ (b = true <->
              exists c, content = Some c
                /\ JSString.includes
                     (JSString.toLowerCase (JSString.trim c)) "english"
                   = true)
          /\ (content = None \/ content = Some "" -> b = false)
  end.
Proof.
  intros Hd. rewrite isEnglish_run, Hd. destruct r as [ds|e]; [|reflexivity].
  intros -> content rest w2 ->. simpl.
  exists (remote_verdict content). split; [reflexivity|]. split.
  - destruct content as [c|].
    + rewrite remote_verdict_content. split; [eauto|].
      intros (c' & [= <-] & Hc). exact Hc.
    + split; [discriminate|]. intros (c & [=] & _).
  - intros [-> | ->]; reflexivity.
Qed.

(** C2: a reply whose trimmed, lower-cased content is exactly
    [non-english] makes [isEnglish] return true, because [english] is a
    substring of [non-english]; so neither of the two tokens of the
    constrained prompt gives a negative verdict. *)
Theorem isEnglish_non_english_reply text st r w1 c rest w2 :
  langdetect_detect svc text (world st) = (r, w1) ->
  chat_completions_create svc (ClassifyRequest text) w1
  = (Normal {| ChatCompletion.choices :=
                 {| ChatCompletion.content := Some c |} :: rest |}, w2) ->
  JSString.toLowerCase (JSString.trim c) = "non-english" ->
  JSString.includes "non-english" "english" = true
  /\ (exists st', isEnglish svc text st = (Normal true, st'))
  /\ (forall c', JSString.toLowerCase (JSString.trim c') = "english"
                 \/ JSString.toLowerCase (JSString.trim c') = "non-english" ->
                 remote_verdict (Some c') = true).
Proof.
  intros Hd Hc Hlow. split; [reflexivity|]. split.
  - rewrite isEnglish_run, Hd. destruct r as [ds|e]; [|eauto].
    destruct (top_is_en ds); [eauto|]. rewrite Hc. simpl.
    rewrite remote_verdict_content, Hlow. eauto.
  - intros c' [E|E]; rewrite remote_verdict_content, E; reflexivity.
Qed.

(** C3: if the remote classification call throws, [isEnglish] returns
    true; the exception does not reach the caller. *)
Theorem isEnglish_remote_failure text st r w1 e w2 :
  langdetect_detect svc text (world st) = (r, w1) ->
  chat_completions_create svc (ClassifyRequest text) w1 = (Throw e, w2) ->
  exists st', isEnglish svc text st = (Normal true, st').
Proof.
  intros Hd Hc. rewrite isEnglish_run, Hd. destruct r as [ds|e']; [|eauto].
  destruct (top_is_en ds); [eauto|]. rewrite Hc. eauto.
Qed.

(** C7: when the top-ranked guess of the local detector has the target
    code, whatever its confidence, [isEnglish] returns true after the
    single detector call; the run is the same under any two
    chat-completion clients. *)
Theorem isEnglish_fast_path text st d ds w1 remote1 remote2 :
  langdetect_detect svc text (world st) = (Normal (Some (d :: ds)), w1) ->
  LanguageDetection.lang d = "en" ->
  isEnglish (with_remote svc remote1) text st
  = (Normal true, mkMachine w1 (trace st ++ [Detect text]))
  /\ remote_calls (trace st ++ [Detect text]) = remote_calls (trace st)
  /\ isEnglish (with_remote svc remote1) text st
     = isEnglish (with_remote svc remote2) text st.
Proof.
  intros Hd Hlang.
  assert (Hrun : forall remote,
             isEnglish (with_remote svc remote) text st
             = (Normal true, mkMachine w1 (trace st ++ [Detect text]))).
  { intros remote. rewrite isEnglish_run. simpl. rewrite Hd. simpl.
    rewrite Hlang. reflexivity. }
  split; [apply Hrun|]. split.
  - rewrite remote_calls_app. simpl. apply app_nil_r.
  - rewrite !Hrun. reflexivity.
Qed.

(** C5 (amended): [translateText] never throws.  On a text that
    converts into the prompt, as every string does, it returns
    [Error translating text.] when the remote call throws (or resolves
    without a first choice), [Translation error] when the content of
    the reply is missing or empty once trimmed, and the trimmed content
    otherwise.  On a text that does not convert it makes no call and
    returns [Error translating text.]. *)
Theorem translateText_result text st r w1 :
  chat_completions_create svc (TranslateRequest text) (world st) = (r, w1) ->
  exists st',
    translateText svc text st
    = (Normal
         (if converts text then
            match r with
            | Throw _ => "Error translating text."
            | Normal response =>
                match ChatCompletion.choices response with
                | [] => "Error translating text."
                | choice :: _ =>
                    match ChatCompletion.content choice with
                    | Some c => if JSString.nonempty (JSString.trim c)
                                then JSString.trim c
                                else "Translation error"
                    | None => "Translation error"
                    end
                end
            end
          else "Error translating text."), st')
    /\ (converts text = false ->
        remote_calls (trace st') = remote_calls (trace st)).
Proof.
  intros Hc. rewrite translateText_run, Hc.
  destruct (converts text).
  - destruct r as [[[|[[c|]] cs]]|e]; simpl; eexists;
      (split; [reflexivity | discriminate]).
  - eexists. split; [reflexivity|]. intros _. simpl.
    rewrite remote_calls_app. simpl. apply app_nil_r.
Qed.

End Classifier.

(** ** The image extractor *)

Section Extractor.
Context {W : Type} `{JSON} (svc : Services W).

(** The request failed, or its response has no first choice. *)
Lemma analyzeImage_failed url st r w1 :
  chat_completions_create svc (VisionRequest url) (world st) = (r, w1) ->
  match r with
  | Throw _ => True
  | Normal response => ChatCompletion.choices response = []
  end ->
  analyzeImage svc url st
  = (Normal {| Analysis.text := JSStr ""; Analysis.isEnglish := true |},
     mkMachine w1
       (trace st ++ [ChatCreate (VisionRequest url);
                     ConsoleError "Error analyzing image with OpenAI:"])).
Proof.
  intros Hc Hr.
  unfold analyzeImage, try_catch, bind, create, perform. simpl.
  rewrite Hc. destruct r as [[cs]|e]; simpl in *; [subst cs; simpl|];
    rewrite <- app_assoc; reflexivity.
Qed.

(** The content parsed to a value whose properties can be read. *)
Lemma analyzeImage_parsed url st content rest w1 v :
  chat_completions_create svc (VisionRequest url) (world st)
  = (Normal {| ChatCompletion.choices :=
                 {| ChatCompletion.content := content |} :: rest |}, w1) ->
  JSON_parse (response_content content) = Some v ->
  v <> JSNull -> v <> JSUndefined ->
  analyzeImage svc url st
  = (Normal {| Analysis.text := js_or (property v "text") (JSStr "");
               Analysis.isEnglish := negb (is_false (property v "isEnglish")) |},
     mkMachine w1 (trace st ++ [ChatCreate (VisionRequest url)])).
Proof.
  intros Hc Hp Hnull Hundef.
  unfold analyzeImage, try_catch, bind, create, perform, parse. simpl.
  rewrite Hc. simpl. rewrite Hp.
  destruct v; try congruence; reflexivity.
Qed.

(** The content did not parse, or parsed to a value whose properties
    cannot be read. *)
Lemma analyzeImage_unparsed url st content rest w1 :
  chat_completions_create svc (VisionRequest url) (world st)
  = (Normal {| ChatCompletion.choices :=
                 {| ChatCompletion.content := content |} :: rest |}, w1) ->
  JSON_parse (response_content content) = None
  \/ JSON_parse (response_content content) = Some JSNull
  \/ JSON_parse (response_content content) = Some JSUndefined ->
  let st1 :=
    mkMachine w1
      (trace st ++ [ChatCreate (VisionRequest url);
                    ConsoleError "Error parsing JSON response from OpenAI:"]) in
  if JSString.includes (response_content content) "NO_TEXT_FOUND"
  then analyzeImage svc url st
       = (Normal {| Analysis.text := JSStr ""; Analysis.isEnglish := true |},
          st1)
  else exists b st2,
      isEnglish svc (response_content content) st1 = (Normal b, st2)
      /\ analyzeImage svc url st
         = (Normal {| Analysis.text := JSStr (response_content content);
                      Analysis.isEnglish := b |}, st2).
Proof.
  intros Hc Hp st1.
  assert (Hrun : analyzeImage svc url st =
    if JSString.includes (response_content content) "NO_TEXT_FOUND"
    then (Normal {| Analysis.text := JSStr ""; Analysis.isEnglish := true |},
          st1)
    else match isEnglish svc (response_content content) st1 with
         | (Normal b, st2) =>
             (Normal {| Analysis.text := JSStr (response_content content);
                        Analysis.isEnglish := b |}, st2)
         | (Throw e, st2) =>
             (Normal {| Analysis.text := JSStr ""; Analysis.isEnglish := true |},
              mkMachine (world st2)
                (trace st2 ++ [ConsoleError "Error analyzing image with OpenAI:"]))
         end).
  { unfold analyzeImage, try_catch, bind, create, perform, parse. simpl.
    rewrite Hc. simpl. rewrite response_content_nonempty.
    subst st1.
    destruct Hp as [-> | [-> | ->]]; simpl; rewrite <- app_assoc; simpl;
      destruct (JSString.includes (response_content content) "NO_TEXT_FOUND");
      simpl; try reflexivity;
      destruct (isEnglish svc (response_content content) _) as [[b|e] st2];
      reflexivity. }
  rewrite Hrun.
  destruct (JSString.includes (response_content content) "NO_TEXT_FOUND");
    [reflexivity|].
  destruct (isEnglish_total svc (response_content content) st1)
    as (b & st2 & E).
  exists b, st2. rewrite E. auto.
Qed.

(** The three ways a response with a first choice is handled. *)
Lemma parse_cases s :
  (JSON_parse s = None \/ JSON_parse s = Some JSNull
   \/ JSON_parse s = Some JSUndefined)
  \/ exists v, JSON_parse s = Some v /\ v <> JSNull /\ v <> JSUndefined.
Proof.
  destruct (JSON_parse s) as [v|]; [|auto].
  destruct v; auto; right; eexists; repeat split; discriminate.
Qed.

Lemma analyzeImage_total url st :
  exists r st', analyzeImage svc url st = (Normal r, st').
Proof.
  destruct (chat_completions_create svc (VisionRequest url) (world st))
    as [[[[|[content] rest]]|e] w1] eqn:Hc.
  - rewrite (analyzeImage_failed url st _ _ Hc); [eauto | reflexivity].
  - destruct (parse_cases (response_content content))
      as [Hp | (v & Hp & Hnull & Hundef)].
    + pose proof (analyzeImage_unparsed url st content rest w1 Hc Hp) as Hu.
      simpl in Hu. destruct (JSString.includes _ _);
        [rewrite Hu; eauto | destruct Hu as (b & st2 & _ & ->); eauto].
    + rewrite (analyzeImage_parsed url st content rest w1 v Hc Hp Hnull Hundef).
      eauto.
  - rewrite (analyzeImage_failed url st _ _ Hc); [eauto | exact I].
Qed.

(** [analyzeImage] sends no reply and asks for no translation. *)
Lemma analyzeImage_quiet url st r st' :
  analyzeImage svc url st = (r, st') ->
  replies (trace st') = replies (trace st)
  /\ translations (trace st') = translations (trace st).
Proof.
  destruct (chat_completions_create svc (VisionRequest url) (world st))
    as [[[[|[content] rest]]|e] w1] eqn:Hc.
  - rewrite (analyzeImage_failed url st _ _ Hc) by reflexivity.
    intros [= <- <-]. simpl. rewrite replies_app, translations_app. simpl.
    rewrite !app_nil_r. auto.
  - destruct (parse_cases (response_content content))
      as [Hp | (v & Hp & Hnull & Hundef)].
    + pose proof (analyzeImage_unparsed url st content rest w1 Hc Hp) as Hu.
      simpl in Hu. destruct (JSString.includes _ _).
      * rewrite Hu. intros [= <- <-]. simpl.
        rewrite replies_app, translations_app. simpl.
        rewrite !app_nil_r. auto.
      * destruct Hu as (b & st2 & Hb & ->). intros [= <- <-].
        apply isEnglish_quiet in Hb. simpl in Hb.
        rewrite replies_app, translations_app in Hb. simpl in Hb.
        rewrite !app_nil_r in Hb. exact Hb.
    + rewrite (analyzeImage_parsed url st content rest w1 v Hc Hp Hnull Hundef).
      intros [= <- <-]. simpl. rewrite replies_app, translations_app. simpl.
      rewrite !app_nil_r. auto.
  - rewrite (analyzeImage_failed url st _ _ Hc) by exact I.
    intros [= <- <-]. simpl. rewrite replies_app, translations_app. simpl.
    rewrite !app_nil_r. auto.
Qed.

(** C8: when the content of the reply parses to an object whose [text]
    is a string, [analyzeImage] returns that string as it is (the empty
    string included) and returns [isEnglish] false exactly when the
    object's [isEnglish] is the boolean [false]; an absent field and any
    other value (null, a number, a string) give true. *)
Theorem analyzeImage_structured_reply url st content rest w1 props t :
  chat_completions_create svc (VisionRequest url) (world st)
  = (Normal {| ChatCompletion.choices :=
                 {| ChatCompletion.content := content |} :: rest |}, w1) ->
  JSON_parse (response_content content) = Some (JSObject props) ->
  props !! "text" = Some (JSStr t) ->
  exists flag,
    analyzeImage svc url st
    = (Normal {| Analysis.text := JSStr t; Analysis.isEnglish := flag |},
       mkMachine w1 (trace st ++ [ChatCreate (VisionRequest url)]))
    /\ (flag = false <-> props !! "isEnglish" = Some (JSBool false))
    /\ (props !! "isEnglish" = None
        \/ props !! "isEnglish" = Some JSNull
        \/ (exists q, props !! "isEnglish" = Some (JSNumber q))
        \/ (exists s, props !! "isEnglish" = Some (JSStr s))
        \/ props !! "isEnglish" = Some (JSBool true) ->
        flag = true).
Proof.
  intros Hc Hp Ht.
  rewrite (analyzeImage_parsed url st content rest w1 _ Hc Hp)
    by discriminate.
  simpl. rewrite Ht. simpl. rewrite js_or_string.
  eexists. split; [reflexivity|].
  pose proof (is_false_property props) as Hf. simpl in Hf.
  destruct (is_false (default JSUndefined (props !! "isEnglish")));
    simpl; split.
  - split; [intros _; apply Hf; reflexivity | reflexivity].
  - intros Hcases. assert (E : props !! "isEnglish" = Some (JSBool false))
      by (apply Hf; reflexivity).
    rewrite E in Hcases.
    destruct Hcases as [?|[?|[[? ?]|[[? ?]|?]]]]; discriminate.
  - split; [discriminate | intros E; apply Hf in E; discriminate].
  - reflexivity.
Qed.


(** C4 (amended): if the text returned by [analyzeImage] is the empty
    string then [isEnglish] is true, except when the content of the
    reply parsed to an object whose [isEnglish] is the boolean [false]
    and whose [text] is falsy: that [false] is returned with the empty
    text. *)
Theorem analyzeImage_empty_text url st r st' :
  analyzeImage svc url st = (Normal r, st') ->
  Analysis.text r = JSStr "" ->
  Analysis.isEnglish r = true
  \/ exists content rest w1 props,
      chat_completions_create svc (VisionRequest url) (world st)
      = (Normal {| ChatCompletion.choices :=
                     {| ChatCompletion.content := content |} :: rest |}, w1)
      /\ JSON_parse (response_content content) = Some (JSObject props)
      /\ props !! "isEnglish" = Some (JSBool false)
      /\ truthy (default JSUndefined (props !! "text")) = false
      /\ Analysis.isEnglish r = false.
Proof.
  intros Hrun Htext.
  destruct (chat_completions_create svc (VisionRequest url) (world st))
    as [[[[|[content] rest]]|e] w1] eqn:Hc.
  - rewrite (analyzeImage_failed url st _ _ Hc) in Hrun by reflexivity.
    injection Hrun as <- <-. auto.
  - destruct (parse_cases (response_content content))
      as [Hp | (v & Hp & Hnull & Hundef)].
    + pose proof (analyzeImage_unparsed url st content rest w1 Hc Hp) as Hu.
      simpl in Hu. destruct (JSString.includes _ _).
      * rewrite Hu in Hrun. injection Hrun as <- <-. auto.
      * destruct Hu as (b & st2 & _ & Hu). rewrite Hu in Hrun.
        injection Hrun as <- <-. simpl in Htext. injection Htext as Hrc.
        pose proof (response_content_nonempty content) as Hne.
        rewrite Hrc in Hne. discriminate.
    + rewrite (analyzeImage_parsed url st content rest w1 v Hc Hp Hnull Hundef)
        in Hrun.
      injection Hrun as <- <-. simpl in *.
      destruct (is_false (property v "isEnglish")) eqn:Hflag; [|auto].
      right. destruct v; try discriminate Hflag.
      apply is_false_property in Hflag.
      exists content, rest, w1, props. repeat split; auto.
      unfold js_or in Htext. simpl in Htext.
      destruct (truthy (default JSUndefined (props !! "text"))) eqn:Et;
        [|reflexivity].
      rewrite Htext in Et. discriminate.
  - rewrite (analyzeImage_failed url st _ _ Hc) in Hrun by exact I.
    injection Hrun as <- <-. auto.
Qed.

End Extractor.

(** ** The dispatcher *)

Section Dispatcher.
Context {W : Type} `{JSON} (svc : Services W) (TOKEN : string).

Lemma sendMessage_trace chat text reply_to st r st' :
  sendMessage svc chat text reply_to st = (r, st') ->
  replies (trace st') = replies (trace st) ++ [(chat, text, reply_to)]
  /\ translations (trace st') = translations (trace st).
Proof.
  unfold sendMessage, perform.
  destruct (api_sendMessage svc chat text reply_to (world st)) as [r' w'].
  intros [= <- <-]. simpl. rewrite replies_app, translations_app. simpl.
  rewrite app_nil_r. auto.
Qed.

(** The text block on a non-empty text. *)
Lemma handle_text_run message s st english st1 :
  Message.text message = Some s ->
  JSString.nonempty s = true ->
  isEnglish svc s st = (Normal english, st1) ->
  handle_text svc message st
  = if english then (Normal tt, st1)
    else
      match translateText svc (JSStr s) st1 with
      | (Normal translation, st2) =>
          sendMessage svc (Message.chat_id message) (reply_text translation)
                      (Message.message_id message) st2
      | (Throw e, st2) => (Throw e, st2)
      end.
Proof.
  intros Ht Hs He. unfold handle_text, bind. rewrite Ht, Hs, He.
  destruct english; reflexivity.
Qed.

(** The text block does nothing on an empty or absent text. *)
Lemma handle_text_skip message st :
  Message.text message = None \/ Message.text message = Some "" ->
  handle_text svc message st = (Normal tt, st).
Proof. unfold handle_text. intros [-> | ->]; reflexivity. Qed.

Lemma handle_photo_skip message st :
  Message.photo message = None \/ Message.photo message = Some [] ->
  handle_photo svc TOKEN message st = (Normal tt, st).
Proof. unfold handle_photo. intros [-> | ->]; reflexivity. Qed.

(** The photo block once the file of the last photo has a path. *)
Lemma handle_photo_run message photos photo path st w1 r st1 :
  Message.photo message = Some photos ->
  last photos = Some photo ->
  api_getFile svc (PhotoSize.file_id photo) (world st)
  = (Normal {| File.file_path := Some path |}, w1) ->
  JSString.nonempty path = true ->
  analyzeImage svc (file_url TOKEN path)
    (mkMachine w1 (trace st ++ [GetFile (PhotoSize.file_id photo)]))
  = (Normal r, st1) ->
  handle_photo svc TOKEN message st
  = if truthy (Analysis.text r) && negb (Analysis.isEnglish r)
    then
      match translateText svc (Analysis.text r) st1 with
      | (Normal translation, st2) =>
          sendMessage svc (Message.chat_id message) (reply_text translation)
                      (Message.message_id message) st2
      | (Throw e, st2) => (Throw e, st2)
      end
    else (Normal tt, st1).
Proof.
  intros Hp Hl Hf Hpath Ha.
  unfold handle_photo, bind, getFile, perform. rewrite Hp, Hl, Hf. simpl.
  rewrite Hpath, Ha.
  destruct (truthy (Analysis.text r) && negb (Analysis.isEnglish r));
    reflexivity.
Qed.

Lemma channel_post_text_only message st :
  Message.photo message = None ->
  snd (channel_post svc TOKEN (Some message) st)
  = snd (handle_text svc message st).
Proof.
  intros Hp. unfold channel_post, bind.
  destruct (handle_text svc message st) as [[[]|e] st1]; [|reflexivity].
  rewrite handle_photo_skip by auto. reflexivity.
Qed.

Lemma channel_post_photo_only message st :
  Message.text message = None ->
  channel_post svc TOKEN (Some message) st
  = handle_photo svc TOKEN message st.
Proof.
  intros Ht. unfold channel_post, bind.
  rewrite handle_text_skip by auto. reflexivity.
Qed.

(** C6: for a post carrying a text, the handler sends a reply exactly
    when the text is non-empty and [isEnglish] returns false; for a
    post carrying a photo whose file resolves, exactly when the text
    returned by [analyzeImage] is non-empty and its [isEnglish] is
    false.  The reply is
    [Translation: <translation>], a blank line, and
    [Please, refrain from usage of any language except English],
    sent to the chat of the post in reply to its message id, where
    the translation is what [translateText] returns: after one
    translation request, or after none when the text taken from the
    image is not a string and does not convert into the prompt.
    Otherwise the handler stops after the extraction: no reply is sent
    and [translateText] is not run. *)
Theorem channel_post_reply chat mid :
  let answer translation :=
    (chat,
     "Translation: " +:+ translation +:+ JSString.newline
       +:+ JSString.newline
       +:+ "Please, refrain from usage of any language except English",
     mid) in
  (forall s st english st1 translation st2,
      isEnglish svc s st = (Normal english, st1) ->
      translateText svc (JSStr s) st1 = (Normal translation, st2) ->
      let post :=
        {| Message.message_id := mid; Message.chat_id := chat;
           Message.text := Some s; Message.photo := None |} in
      let final := snd (channel_post svc TOKEN (Some post) st) in
      let fires := JSString.nonempty s && negb english in
      replies (trace final)
      = replies (trace st) ++ (if fires then [answer translation] else [])
      /\ translations (trace final)
         = translations (trace st) ++ (if fires then [JSStr s] else [])
      /\ (fires = false ->
          final = if JSString.nonempty s then st1 else st))
  /\ (forall photos photo path st w1 r st1 translation st2,
      last photos = Some photo ->
      api_getFile svc (PhotoSize.file_id photo) (world st)
      = (Normal {| File.file_path := Some path |}, w1) ->
      JSString.nonempty path = true ->
      analyzeImage svc (file_url TOKEN path)
        (mkMachine w1 (trace st ++ [GetFile (PhotoSize.file_id photo)]))
      = (Normal r, st1) ->
      translateText svc (Analysis.text r) st1 = (Normal translation, st2) ->
      let post :=
        {| Message.message_id := mid; Message.chat_id := chat;
           Message.text := None; Message.photo := Some photos |} in
      let final := snd (channel_post svc TOKEN (Some post) st) in
      let fires := truthy (Analysis.text r) && negb (Analysis.isEnglish r) in
      replies (trace final)
      = replies (trace st) ++ (if fires then [answer translation] else [])
      /\ translations (trace final)
         = translations (trace st)
           ++ (if fires && converts (Analysis.text r)
               then [Analysis.text r] else [])
      /\ (converts (Analysis.text r) = false ->
          translation = "Error translating text.")
      /\ (fires = false -> final = st1)).
Proof.
  intros answer. split.
  - intros s st english st1 translation st2 He Ht post final fires.
    subst final. rewrite channel_post_text_only by reflexivity.
    destruct (JSString.nonempty s) eqn:Hs.
    + rewrite (handle_text_run post s st english st1 eq_refl Hs He).
      apply isEnglish_quiet in He as [Hr1 Hq1].
      subst fires. destruct english; simpl.
      * rewrite !app_nil_r. auto.
      * rewrite Ht. apply translateText_trace in Ht as [Hr2 Hq2].
        simpl in Hq2.
        destruct (sendMessage svc _ _ _ st2) as [[[]|e] st3] eqn:Hsend;
          apply sendMessage_trace in Hsend as [Hr3 Hq3]; simpl;
          rewrite Hr3, Hq3, Hr2, Hq2, Hr1, Hq1;
          (split; [reflexivity|]); (split; [reflexivity | discriminate]).
    + rewrite (handle_text_skip post)
        by (right; destruct s; [reflexivity | discriminate]).
      subst fires. simpl. rewrite !app_nil_r. auto.
  - intros photos photo path st w1 r st1 translation st2
           Hl Hf Hpath Ha Ht post final fires.
    subst final. rewrite channel_post_photo_only by reflexivity.
    rewrite (handle_photo_run post photos photo path st w1 r st1
               eq_refl Hl Hf Hpath Ha).
    apply analyzeImage_quiet in Ha as [Hr1 Hq1]. simpl in Hr1, Hq1.
    rewrite replies_app in Hr1. rewrite translations_app in Hq1.
    simpl in Hr1, Hq1. rewrite app_nil_r in Hr1, Hq1.
    assert (Hplace : converts (Analysis.text r) = false ->
                     translation = "Error translating text.").
    { intros Hconv. rewrite translateText_run, Hconv in Ht. congruence. }
    subst fires.
    destruct (truthy (Analysis.text r) && negb (Analysis.isEnglish r)).
    + rewrite Ht. apply translateText_trace in Ht as [Hr2 Hq2].
      destruct (sendMessage svc _ _ _ st2) as [[[]|e] st3] eqn:Hsend;
        apply sendMessage_trace in Hsend as [Hr3 Hq3]; simpl;
        rewrite Hr3, Hq3, Hr2, Hq2, Hr1, Hq1;
        (split; [reflexivity|]); (split; [reflexivity|]);
        (split; [exact Hplace | discriminate]).
    + simpl. rewrite !app_nil_r. auto.
Qed.

(** C10 (amended): [isEnglish] has no case of its own for the empty
    string.  On it, as on any text, the result is false exactly when
    the detector returns without the target code on top and the first
    choice of the remote reply lacks the token, and true otherwise.
    The handler does not classify an empty text: its text block does
    nothing. *)
Theorem isEnglish_empty_string st :
  (exists b st', isEnglish svc "" st = (Normal b, st')
     /\ (b = false <->
         exists detections w1 choice rest w2,
           langdetect_detect svc "" (world st) = (Normal detections, w1)
           /\ top_is_en detections = false
           /\ chat_completions_create svc (ClassifyRequest "") w1
              = (Normal {| ChatCompletion.choices := choice :: rest |}, w2)
           /\ remote_verdict (ChatCompletion.content choice) = false))
  /\ (forall message,
         Message.text message = Some "" ->
         handle_text svc message st = (Normal tt, st)).
Proof.
  split.
  - destruct (isEnglish_total svc "" st) as (b & st' & Hrun).
    exists b, st'. split; [exact Hrun|]. split.
    + intros ->. exact (isEnglish_false_inv svc "" st st' Hrun).
    + intros (ds & w1 & c & cs & w2 & Hd & Htop & Hc & Hv).
      rewrite isEnglish_run, Hd, Htop, Hc in Hrun. simpl in Hrun.
      congruence.
  - intros message Ht. apply handle_text_skip. auto.
Qed.

End Dispatcher.

(** ** Concrete runs *)

(** C1, as stated, fails when the detector throws: the remote check is
    not issued and the result is true, although the reply the remote
    would give lacks the token. *)
Lemma isEnglish_detector_throw_counterexample :
  let svc := Script.services (Throw (ServiceError "langdetect failed"))
               (fun _ => Normal (Script.reply (Some "french"))) in
  ~ (forall r w1,
        langdetect_detect svc "hola" (world Script.init) = (r, w1) ->
        match r with
        | Normal detections => top_is_en detections = false
        | Throw _ => True
        end ->
        forall content rest w2,
          chat_completions_create svc (ClassifyRequest "hola") w1
          = (Normal {| ChatCompletion.choices :=
                         {| ChatCompletion.content := content |} :: rest |},
             w2) ->
          exists b st',
            isEnglish svc "hola" Script.init = (Normal b, st')
            /\ ChatCreate (ClassifyRequest "hola") ∈ trace st'
            /\ (b = true <->
                exists c, content = Some c
                  /\ JSString.includes
                       (JSString.toLowerCase (JSString.trim c)) "english"
                     = true)).
Proof.
  intros svc Hclaim.
  destruct (Hclaim _ tt eq_refl I (Some "french") [] tt eq_refl)
    as (b & st' & Hrun & _ & Hb).
  vm_compute in Hrun. injection Hrun as <- _.
  destruct Hb as [Hb _]. destruct (Hb eq_refl) as (c & [= <-] & Hc).
  vm_compute in Hc. discriminate.
Qed.

Lemma isEnglish_fallback_witness :
  let svc := Script.services (Normal (Some [Script.guess "fr"]))
               (fun _ => Normal (Script.reply (Some " French "))) in
  exists b,
    isEnglish svc "Bonjour le monde" Script.init
    = (Normal b,
       mkMachine tt [Detect "Bonjour le monde";
                     ChatCreate (ClassifyRequest "Bonjour le monde")])
    /\ (b = true <->
        exists c, Some " French " = Some c
          /\ JSString.includes (JSString.toLowerCase (JSString.trim c)) "english"
             = true)
    /\ (Some " French " = None \/ Some " French " = Some "" -> b = false).
Proof.
  exact (isEnglish_fallback
           (Script.services (Normal (Some [Script.guess "fr"]))
              (fun _ => Normal (Script.reply (Some " French "))))
           "Bonjour le monde" Script.init _ tt eq_refl eq_refl
           (Some " French ") [] tt eq_refl).
Defined.

Lemma isEnglish_non_english_reply_witness :
  let svc := Script.services (Normal (Some [Script.guess "fr"]))
               (fun _ => Normal (Script.reply (Some " Non-English "))) in
  JSString.includes "non-english" "english" = true
  /\ (exists st', isEnglish svc "Bonjour le monde" Script.init
                  = (Normal true, st'))
  /\ (forall c', JSString.toLowerCase (JSString.trim c') = "english"
                 \/ JSString.toLowerCase (JSString.trim c') = "non-english" ->
                 remote_verdict (Some c') = true).
Proof.
  exact (isEnglish_non_english_reply
           (Script.services (Normal (Some [Script.guess "fr"]))
              (fun _ => Normal (Script.reply (Some " Non-English "))))
           "Bonjour le monde" Script.init _ tt " Non-English " [] tt
           eq_refl eq_refl eq_refl).
Defined.

Lemma isEnglish_remote_failure_witness :
  let svc := Script.services (Normal None) (fun _ => Script.unavailable) in
  exists st', isEnglish svc "Bonjour le monde" Script.init = (Normal true, st').
Proof.
  exact (isEnglish_remote_failure
           (Script.services (Normal None) (fun _ => Script.unavailable))
           "Bonjour le monde" Script.init _ tt _ tt eq_refl eq_refl).
Defined.

Lemma isEnglish_fast_path_witness :
  let svc := Script.services
               (Normal (Some [ {| LanguageDetection.lang := "en";
                                  LanguageDetection.prob :=
                                    QArith_base.Qmake 1 100 |};
                               Script.guess "fr" ]))
               (fun _ => Script.unavailable) in
  let remote1 := fun (_ : ChatRequest) (w : unit) => (Script.unavailable, w) in
  let remote2 := fun (_ : ChatRequest) (w : unit) =>
                   (Normal (Script.reply (Some "french")), w) in
  isEnglish (with_remote svc remote1) "Hello world" Script.init
  = (Normal true, mkMachine tt [Detect "Hello world"])
  /\ remote_calls ([] ++ [Detect "Hello world"]) = remote_calls []
  /\ isEnglish (with_remote svc remote1) "Hello world" Script.init
     = isEnglish (with_remote svc remote2) "Hello world" Script.init.
Proof.
  exact (isEnglish_fast_path
           (Script.services
              (Normal (Some [ {| LanguageDetection.lang := "en";
                                 LanguageDetection.prob :=
                                   QArith_base.Qmake 1 100 |};
                              Script.guess "fr" ]))
              (fun _ => Script.unavailable))
           "Hello world" Script.init _ _ tt
           (fun _ w => (Script.unavailable, w))
           (fun _ w => (Normal (Script.reply (Some "french")), w))
           eq_refl eq_refl).
Defined.

(** C5, as stated, fails: the two failures give two different strings. *)
Lemma translateText_placeholder_counterexample :
  let failing := Script.services (Normal None) (fun _ => Script.unavailable) in
  let silent := Script.services (Normal None)
                  (fun _ => Normal (Script.reply (Some ""))) in
  ~ exists placeholder : string,
      fst (translateText failing (JSStr "Bonjour") Script.init)
      = Normal placeholder
      /\ fst (translateText silent (JSStr "Bonjour") Script.init)
         = Normal placeholder.
Proof.
  intros failing silent (placeholder & Hfail & Hsilent).
  vm_compute in Hfail, Hsilent. congruence.
Qed.

Lemma translateText_result_witness :
  let svc := Script.services (Normal None)
               (fun _ => Normal (Script.reply (Some "  Hello world "))) in
  exists st',
    translateText svc (JSStr "Bonjour le monde") Script.init
    = (Normal "Hello world", st').
Proof.
  intros svc.
  destruct (translateText_result svc (JSStr "Bonjour le monde") Script.init
              _ tt eq_refl) as (st' & Hrun & _).
  exists st'. exact Hrun.
Defined.

(** C4, as stated, fails on a structured reply with an empty text and an
    explicit false: the text is empty and [isEnglish] is false. *)
Lemma analyzeImage_empty_text_counterexample :
  let content := Script.structured "" "false" in
  let svc := Script.services (Normal None)
               (fun _ => Normal (Script.reply (Some content))) in
  Json.parse content
  = Some (JSObject (<["isEnglish" := JSBool false]>
                      (<["text" := JSStr ""]> ∅)))
  /\ ~ (forall r st',
           analyzeImage (H:=host_json) svc "https://example.org/image.jpg"
                        Script.init = (Normal r, st') ->
           Analysis.text r = JSStr "" ->
           Analysis.isEnglish r = true).
Proof.
  intros content svc. split; [vm_compute; reflexivity|].
  intros Hclaim.
  specialize (Hclaim {| Analysis.text := JSStr ""; Analysis.isEnglish := false |}
                     (mkMachine tt [ChatCreate
                                      (VisionRequest
                                         "https://example.org/image.jpg")])).
  discriminate Hclaim; vm_compute; reflexivity.
Qed.

Lemma analyzeImage_empty_text_witness :
  let content := Script.structured "" "false" in
  let svc := Script.services (Normal None)
               (fun _ => Normal (Script.reply (Some content))) in
  exists props,
    JSON_parse (JSON:=host_json) (response_content (Some content))
    = Some (JSObject props)
    /\ props !! "isEnglish" = Some (JSBool false).
Proof.
  intros content svc.
  destruct (analyzeImage_empty_text (H:=host_json) svc
              "https://example.org/image.jpg" Script.init
              {| Analysis.text := JSStr ""; Analysis.isEnglish := false |}
              (mkMachine tt [ChatCreate
                               (VisionRequest "https://example.org/image.jpg")])
              ltac:(vm_compute; reflexivity) eq_refl)
    as [Htrue | (c & rest & w1 & props & Hc & Hp & Hflag & _)].
  - discriminate Htrue.
  - injection Hc as <- _. exists props. split; [exact Hp | exact Hflag].
Defined.

Lemma analyzeImage_structured_reply_witness :
  let content := Script.structured "Bonjour" "false" in
  let svc := Script.services (Normal None)
               (fun _ => Normal (Script.reply (Some content))) in
  exists st',
    analyzeImage (H:=host_json) svc "https://example.org/image.jpg" Script.init
    = (Normal {| Analysis.text := JSStr "Bonjour";
                 Analysis.isEnglish := false |}, st').
Proof.
  intros content svc.
  pose (props := <["isEnglish" := JSBool false]>
                   (<["text" := JSStr "Bonjour"]>
                      (∅ : gmap string JSValue))).
  assert (Hp : JSON_parse (JSON:=host_json) (response_content (Some content))
               = Some (JSObject props)) by (vm_compute; reflexivity).
  assert (Ht : props !! "text" = Some (JSStr "Bonjour"))
    by (vm_compute; reflexivity).
  destruct (analyzeImage_structured_reply (H:=host_json) svc
              "https://example.org/image.jpg" Script.init
              (Some content) [] tt props "Bonjour" eq_refl Hp Ht)
    as (flag & Hrun & Hflag & _).
  assert (flag = false) as -> by (apply Hflag; vm_compute; reflexivity).
  eexists. exact Hrun.
Defined.



Lemma channel_post_reply_witness :
  let svc := Script.services (Normal (Some [Script.guess "fr"]))
               (Script.by_kind (Normal (Script.reply (Some "french")))
                               (Normal (Script.reply (Some Script.unconvertible)))
                               (Normal (Script.reply (Some "Hello world")))) in
  let post := {| Message.message_id := 123; Message.chat_id := 456;
                 Message.text := Some "Bonjour le monde";
                 Message.photo := None |} in
  let final := snd (channel_post (H:=host_json) svc "fake-token" (Some post)
                                 Script.init) in
  let image := {| Message.message_id := 124; Message.chat_id := 456;
                  Message.text := None;
                  Message.photo :=
                    Some [ {| PhotoSize.file_id := "large_photo_id" |} ] |} in
  let final' := snd (channel_post (H:=host_json) svc "fake-token" (Some image)
                                  Script.init) in
  (replies (trace final)
   = [(456%Z,
       "Translation: Hello world" +:+ JSString.newline +:+ JSString.newline
         +:+ "Please, refrain from usage of any language except English",
       123%Z)]
   /\ translations (trace final) = [JSStr "Bonjour le monde"])
  /\ (replies (trace final')
      = [(456%Z,
          "Translation: Error translating text." +:+ JSString.newline
            +:+ JSString.newline
            +:+ "Please, refrain from usage of any language except English",
          124%Z)]
      /\ translations (trace final') = []).
Proof.
  intros svc post final image final'. split.
  - destruct (proj1 (channel_post_reply (H:=host_json) svc "fake-token" 456 123)
                "Bonjour le monde" Script.init false
                (mkMachine tt [Detect "Bonjour le monde";
                               ChatCreate (ClassifyRequest "Bonjour le monde")])
                "Hello world"
                (mkMachine tt [Detect "Bonjour le monde";
                               ChatCreate (ClassifyRequest "Bonjour le monde");
                               ChatCreate
                                 (TranslateRequest (JSStr "Bonjour le monde"))])
                eq_refl eq_refl) as (Hr & Hq & _).
    split; [exact Hr | exact Hq].
  - pose (object := JSObject (<["toString" := JSNumber (QArith_base.Qmake 1 1)]>
                                (∅ : gmap string JSValue))).
    pose (asked := mkMachine tt [GetFile "large_photo_id"]).
    pose (seen := mkMachine tt
                    [GetFile "large_photo_id";
                     ChatCreate
                       (VisionRequest
                          (file_url "fake-token" "photos/file_1.jpg"))]).
    assert (Ha : analyzeImage (H:=host_json) svc
                   (file_url "fake-token" "photos/file_1.jpg") asked
                 = (Normal {| Analysis.text := object;
                              Analysis.isEnglish := false |}, seen))
      by (vm_compute; reflexivity).
    assert (Ht : translateText svc object seen
                 = (Normal "Error translating text.",
                    mkMachine tt
                      (trace seen ++ [ConsoleError "Error translating text:"])))
      by (vm_compute; reflexivity).
    destruct (proj2 (channel_post_reply (H:=host_json) svc "fake-token" 456 124)
                [ {| PhotoSize.file_id := "large_photo_id" |} ]
                {| PhotoSize.file_id := "large_photo_id" |}
                "photos/file_1.jpg" Script.init tt _ seen
                "Error translating text." _
                eq_refl eq_refl eq_refl Ha Ht) as (Hr & Hq & _).
    split; [exact Hr | exact Hq].
Defined.

(** C10, as stated, fails: with an inconclusive detector and a remote
    reply that lacks the token, [isEnglish] returns false on the empty
    string. *)
Lemma isEnglish_empty_string_counterexample :
  let svc := Script.services (Normal (Some []))
               (fun _ => Normal (Script.reply (Some "french"))) in
  ~ exists st', isEnglish svc "" Script.init = (Normal true, st').
Proof.
  intros svc (st' & Hrun). vm_compute in Hrun. discriminate Hrun.
Qed.

Lemma isEnglish_empty_string_witness :
  let svc := Script.services (Normal (Some []))
               (fun _ => Normal (Script.reply (Some "french"))) in
  let post := {| Message.message_id := 123; Message.chat_id := 456;
                 Message.text := Some ""; Message.photo := None |} in
  handle_text svc post Script.init = (Normal tt, Script.init).
Proof.
  exact (proj2 (isEnglish_empty_string
                  (Script.services (Normal (Some []))
                     (fun _ => Normal (Script.reply (Some "french"))))
                  Script.init)
           {| Message.message_id := 123; Message.chat_id := 456;
              Message.text := Some ""; Message.photo := None |} eq_refl).
Defined.

(** ** The repository's test cases, run on the model *)

Lemma parse_default_response :
  Json.parse default_response
  = Some (JSObject (<["isEnglish" := JSBool true]> (<["text" := JSStr ""]> ∅))).
Proof. vm_compute. reflexivity. Qed.

(** A missing or blank content is replaced by the default response and
    goes through the structured path. *)
Lemma analyzeImage_blank_reply content st :
  let svc := Script.services (Normal None)
               (fun _ => Normal (Script.reply content)) in
  JSString.nonempty (default "" (option_map JSString.trim content)) = false ->
  analyzeImage (H:=host_json) svc "https://example.org/image.jpg" st
  = (Normal {| Analysis.text := JSStr ""; Analysis.isEnglish := true |},
     mkMachine (world st)
       (trace st ++ [ChatCreate (VisionRequest "https://example.org/image.jpg")])).
Proof.
  intros svc Hblank.
  assert (Hrc : response_content content = default_response).
  { unfold response_content. destruct content as [c|]; simpl in *;
      [rewrite Hblank|]; reflexivity. }
  rewrite (analyzeImage_parsed (H:=host_json) svc _ st content [] (world st)
             (JSObject (<["isEnglish" := JSBool true]>
                          (<["text" := JSStr ""]> ∅))));
    try discriminate; try reflexivity.
  rewrite Hrc. apply parse_default_response.
Qed.

Example image_test_english_text :
  fst (analyzeImage (H:=host_json)
         (Script.services (Normal None)
            (fun _ => Normal (Script.reply
                                (Some (Script.structured "Hello world" "true")))))
         "http://example.com/image.jpg" Script.init)
  = Normal {| Analysis.text := JSStr "Hello world"; Analysis.isEnglish := true |}.
Proof. vm_compute. reflexivity. Qed.

Example image_test_non_english_text :
  fst (analyzeImage (H:=host_json)
         (Script.services (Normal None)
            (fun _ => Normal (Script.reply
                                (Some (Script.structured "Bonjour le monde"
                                                         "false")))))
         "http://example.com/image.jpg" Script.init)
  = Normal {| Analysis.text := JSStr "Bonjour le monde";
              Analysis.isEnglish := false |}.
Proof. vm_compute. reflexivity. Qed.

Example image_test_invalid_json :
  analyzeImage (H:=host_json)
    (Script.services (Normal (Some [Script.guess "en"]))
       (fun _ => Normal (Script.reply (Some "This is not valid JSON"))))
    "http://example.com/image.jpg" Script.init
  = (Normal {| Analysis.text := JSStr "This is not valid JSON";
               Analysis.isEnglish := true |},
     mkMachine tt
       [ChatCreate (VisionRequest "http://example.com/image.jpg");
        ConsoleError "Error parsing JSON response from OpenAI:";
        Detect "This is not valid JSON"]).
Proof. vm_compute. reflexivity. Qed.

Example image_test_api_error :
  fst (analyzeImage (H:=host_json)
         (Script.services (Normal None) (fun _ => Script.unavailable))
         "http://example.com/image.jpg" Script.init)
  = Normal {| Analysis.text := JSStr ""; Analysis.isEnglish := true |}.
Proof. vm_compute. reflexivity. Qed.

Example bot_test_english_text_no_reply :
  let post := {| Message.message_id := 123; Message.chat_id := 456;
                 Message.text := Some "Hello world"; Message.photo := None |} in
  trace (snd (channel_post (H:=host_json)
                (Script.services (Normal (Some [Script.guess "en"]))
                   (fun _ => Script.unavailable))
                "fake-token" (Some post) Script.init))
  = [Detect "Hello world"].
Proof. vm_compute. reflexivity. Qed.

Example bot_test_photo_non_english :
  let post := {| Message.message_id := 123; Message.chat_id := 456;
                 Message.text := None;
                 Message.photo :=
                   Some [ {| PhotoSize.file_id := "small_photo_id" |};
                          {| PhotoSize.file_id := "large_photo_id" |} ] |} in
  let url := "https://api.telegram.org/file/botfake-token/photos/file_1.jpg" in
  trace (snd (channel_post (H:=host_json)
                (Script.services (Normal None)
                   (Script.by_kind
                      Script.unavailable
                      (Normal (Script.reply
                                 (Some (Script.structured "Bonjour le monde"
                                                          "false"))))
                      (Normal (Script.reply (Some "Hello world")))))
                "fake-token" (Some post) Script.init))
  = [GetFile "large_photo_id";
     ChatCreate (VisionRequest url);
     ChatCreate (TranslateRequest (JSStr "Bonjour le monde"));
     SendMessage 456
       ("Translation: Hello world" +:+ JSString.newline +:+ JSString.newline
          +:+ "Please, refrain from usage of any language except English")
       123].
Proof. vm_compute. reflexivity. Qed.

Example bot_test_empty_update :
  trace (snd (channel_post (H:=host_json)
                (Script.services (Normal None) (fun _ => Script.unavailable))
                "fake-token" None Script.init))
  = [ConsoleLog "Received empty channel post"].
Proof. vm_compute. reflexivity. Qed.

(** * Further properties *)

(** ** Host strings *)

Lemma is_whitespace_lower c :
  JSString.is_whitespace (JSString.lower_char c) = JSString.is_whitespace c.
Proof. destruct c as [[] [] [] [] [] [] [] []]; reflexivity. Qed.

Lemma toLowerCase_app a b :
  JSString.toLowerCase (a +:+ b)
  = JSString.toLowerCase a +:+ JSString.toLowerCase b.
Proof. induction a as [|c a IH]; simpl; [reflexivity | rewrite IH; reflexivity]. Qed.

Lemma toLowerCase_trimStart s :
  JSString.toLowerCase (JSString.trimStart s)
  = JSString.trimStart (JSString.toLowerCase s).
Proof.
  induction s as [|c s IH]; simpl; [reflexivity|].
  rewrite is_whitespace_lower.
  destruct (JSString.is_whitespace c); [exact IH | reflexivity].
Qed.

Lemma toLowerCase_empty s :
  JSString.toLowerCase s = "" <-> s = "".
Proof. destruct s; simpl; split; congruence. Qed.

Lemma toLowerCase_trimEnd s :
  JSString.toLowerCase (JSString.trimEnd s)
  = JSString.trimEnd (JSString.toLowerCase s).
Proof.
  induction s as [|c s IH]; simpl; [reflexivity|].
  rewrite <- IH, is_whitespace_lower.
  destruct (JSString.trimEnd s) as [|d r]; simpl;
    [destruct (JSString.is_whitespace c)|]; reflexivity.
Qed.

Lemma toLowerCase_trim s :
  JSString.toLowerCase (JSString.trim s)
  = JSString.trim (JSString.toLowerCase s).
Proof.
  unfold JSString.trim. rewrite toLowerCase_trimEnd, toLowerCase_trimStart.
  reflexivity.
Qed.

(** [trimEnd] gives the empty string or keeps the first character. *)
Lemma trimEnd_cons c s :
  JSString.trimEnd (String c s) = ""
  /\ JSString.trimEnd s = "" /\ JSString.is_whitespace c = true
  \/ JSString.trimEnd (String c s) = String c (JSString.trimEnd s).
Proof.
  simpl. destruct (JSString.trimEnd s) as [|d r]; [|auto].
  destruct (JSString.is_whitespace c); auto.
Qed.

Lemma trimEnd_idempotent s :
  JSString.trimEnd (JSString.trimEnd s) = JSString.trimEnd s.
Proof.
  induction s as [|c s IH]; [reflexivity|].
  destruct (trimEnd_cons c s) as [(-> & _ & _) | Hk]; [reflexivity|].
  rewrite Hk. simpl. rewrite IH.
  destruct (JSString.trimEnd s) as [|d r] eqn:E; [|reflexivity].
  destruct (JSString.is_whitespace c) eqn:Ec; [|reflexivity].
  simpl in Hk. rewrite E, Ec in Hk. discriminate.
Qed.

Lemma trimStart_head s :
  match JSString.trimStart s with
  | EmptyString => True
  | String c _ => JSString.is_whitespace c = false
  end.
Proof.
  induction s as [|c s IH]; simpl; [exact I|].
  destruct (JSString.is_whitespace c) eqn:E; [exact IH | exact E].
Qed.

Lemma trim_head s :
  match JSString.trim s with
  | EmptyString => True
  | String c _ => JSString.is_whitespace c = false
  end.
Proof.
  unfold JSString.trim. pose proof (trimStart_head s) as H.
  destruct (JSString.trimStart s) as [|c r]; [exact I|].
  destruct (trimEnd_cons c r) as [(_ & _ & Hc) | ->]; [congruence | exact H].
Qed.

Lemma trimStart_fixed s :
  match s with
  | EmptyString => True
  | String c _ => JSString.is_whitespace c = false
  end ->
  JSString.trimStart s = s.
Proof. destruct s as [|c r]; simpl; [reflexivity | intros ->; reflexivity]. Qed.

Lemma trim_idempotent s : JSString.trim (JSString.trim s) = JSString.trim s.
Proof.
  pose proof (trim_head s) as H. apply trimStart_fixed in H.
  unfold JSString.trim at 1. rewrite H.
  unfold JSString.trim. apply trimEnd_idempotent.
Qed.

Lemma prefix_app t q : String.prefix t (t +:+ q) = true.
Proof.
  induction t as [|a t IH]; simpl; [destruct q; reflexivity|].
  destruct (ascii_dec a a); [exact IH | congruence].
Qed.

Lemma prefix_empty t : t <> "" -> String.prefix t "" = false.
Proof. destruct t; [congruence | reflexivity]. Qed.

Lemma includes_unfold s t :
  JSString.includes s t
  = String.prefix t s
    || match s with
       | EmptyString => false
       | String _ s' => JSString.includes s' t
       end.
Proof. destruct s; reflexivity. Qed.

Lemma includes_app_r p s t :
  JSString.includes s t = true -> JSString.includes (p +:+ s) t = true.
Proof.
  intros H. induction p as [|c p IH]; simpl; [exact H|].
  rewrite IH. apply orb_true_r.
Qed.

Lemma includes_token p t q : JSString.includes (p +:+ t +:+ q) t = true.
Proof.
  apply includes_app_r. rewrite includes_unfold, prefix_app. reflexivity.
Qed.

Lemma includes_trimStart a t s :
  JSString.is_whitespace a = false ->
  JSString.includes (JSString.trimStart s) (String a t)
  = JSString.includes s (String a t).
Proof.
  intros Ha. induction s as [|c s IH]; [reflexivity|].
  simpl JSString.trimStart. destruct (JSString.is_whitespace c) eqn:Ec;
    [|reflexivity].
  rewrite IH. rewrite (includes_unfold (String c s)). simpl.
  destruct (ascii_dec a c) as [->|_]; [congruence | reflexivity].
Qed.

Lemma trimEnd_fixed_cons a t :
  JSString.trimEnd (String a t) = String a t ->
  t = "" /\ JSString.is_whitespace a = false
  \/ t <> "" /\ JSString.trimEnd t = t.
Proof.
  simpl. destruct (JSString.trimEnd t) as [|d r] eqn:E.
  - destruct (JSString.is_whitespace a); [discriminate|].
    intros [= <-]. auto.
  - intros [= <-]. right. split; [discriminate | reflexivity].
Qed.

Lemma prefix_trimEnd t :
  t <> "" -> JSString.trimEnd t = t ->
  forall s, String.prefix t (JSString.trimEnd s) = String.prefix t s.
Proof.
  induction t as [|a t IH]; [congruence|].
  intros _ Hfix s.
  destruct (trimEnd_fixed_cons a t Hfix) as [[-> Ha] | [Hne Ht]].
  - destruct s as [|c s]; [reflexivity|].
    destruct (trimEnd_cons c s) as [(-> & _ & Hc) | ->]; simpl.
    + destruct (ascii_dec a c) as [->|_]; [congruence | reflexivity].
    + destruct (ascii_dec a c); [|reflexivity].
      destruct (JSString.trimEnd s), s; reflexivity.
  - specialize (IH Hne Ht).
    destruct s as [|c s]; [reflexivity|].
    destruct (trimEnd_cons c s) as [(-> & Hs & _) | ->]; simpl.
    + destruct (ascii_dec a c); [|reflexivity].
      rewrite <- IH, Hs. symmetry. apply prefix_empty, Hne.
    + destruct (ascii_dec a c); [apply IH | reflexivity].
Qed.

Lemma includes_trimEnd t s :
  t <> "" -> JSString.trimEnd t = t ->
  JSString.includes (JSString.trimEnd s) t = JSString.includes s t.
Proof.
  intros Hne Hfix. induction s as [|c s IH]; [reflexivity|].
  rewrite (includes_unfold (String c s)).
  rewrite <- (prefix_trimEnd t Hne Hfix (String c s)), <- IH.
  destruct (trimEnd_cons c s) as [(-> & -> & _) | ->].
  - simpl. rewrite orb_false_r. destruct t; [congruence | reflexivity].
  - apply includes_unfold.
Qed.

(** A token that neither starts nor ends with white space occurs in
    [trim s] exactly when it occurs in [s]. *)
Lemma includes_trim a t s :
  JSString.is_whitespace a = false ->
  JSString.trimEnd (String a t) = String a t ->
  JSString.includes (JSString.trim s) (String a t)
  = JSString.includes s (String a t).
Proof.
  intros Ha Hfix. unfold JSString.trim.
  rewrite includes_trimEnd by (discriminate || exact Hfix).
  apply includes_trimStart, Ha.
Qed.

(** X2: the remote verdict depends only on whether the lower-cased
    content contains [english]: trimming changes nothing, and a content
    that contains the word in any letter case, anywhere, gives true. *)
Theorem remote_verdict_any_case_anywhere c :
  remote_verdict (Some c)
  = JSString.includes (JSString.toLowerCase c) "english"
  /\ (forall p u q,
         JSString.toLowerCase u = "english" ->
         remote_verdict (Some (p +:+ u +:+ q)) = true).
Proof.
  assert (Hv : forall c', remote_verdict (Some c')
                          = JSString.includes (JSString.toLowerCase c') "english").
  { intros c'. rewrite remote_verdict_content, toLowerCase_trim.
    apply includes_trim; reflexivity. }
  split; [apply Hv|].
  intros p u q Hu. rewrite Hv, !toLowerCase_app, Hu. apply includes_token.
Qed.

Lemma remote_verdict_any_case_anywhere_witness :
  remote_verdict (Some ("This text is not " +:+ "English" +:+ ".")) = true.
Proof.
  exact (proj2 (remote_verdict_any_case_anywhere "") "This text is not "
           "English" "." eq_refl).
Defined.

Lemma detector_calls_app t u :
  detector_calls (t ++ u) = detector_calls t ++ detector_calls u.
Proof. apply omap_app. Qed.

Lemma file_requests_app t u :
  file_requests (t ++ u) = file_requests t ++ file_requests u.
Proof. apply omap_app. Qed.

(** ** Calls made by the classifier and the translator *)

Section Calls.
Context {W : Type} (svc : Services W).

(** X1: every run of [isEnglish] ends normally; it calls the detector
    once, first, and then makes at most one remote call, a
    classification request for the same text.  It fetches no file and
    sends no reply. *)
Theorem isEnglish_calls text st :
  exists b st' evs,
    isEnglish svc text st = (Normal b, st')
    /\ trace st' = trace st ++ Detect text :: evs
    /\ detector_calls evs = []
    /\ (remote_calls evs = [] \/ remote_calls evs = [ClassifyRequest text])
    /\ replies evs = []
    /\ file_requests evs = [].
Proof.
  rewrite isEnglish_run.
  destruct (langdetect_detect svc text (world st)) as [[ds|e] w1];
    [destruct (top_is_en ds);
     [|destruct (chat_completions_create svc (ClassifyRequest text) w1)
         as [[[[|c cs]]|e] w2]]|];
    simpl; rewrite <- ?app_assoc; simpl;
    eexists _, _, _; (split; [reflexivity|]); (split; [reflexivity|]);
    simpl; auto.
Qed.

(** X3: every run of [translateText] ends normally with a string that is
    not empty and has no white space at either end.  When the text
    converts into the prompt, as every string does, exactly one remote
    call is made, the translation request for that text; when it does
    not, no call is made and the result is [Error translating text.]. *)
Theorem translateText_reply_body text st :
  exists t st' evs,
    translateText svc text st = (Normal t, st')
    /\ JSString.nonempty t = true
    /\ JSString.trim t = t
    /\ trace st'
       = trace st
         ++ (if converts text then [ChatCreate (TranslateRequest text)] else [])
         ++ evs
    /\ (converts text = false -> t = "Error translating text.")
    /\ remote_calls evs = []
    /\ detector_calls evs = []
    /\ replies evs = [].
Proof.
  rewrite translateText_run. destruct (converts text).
  - destruct (chat_completions_create svc (TranslateRequest text) (world st))
      as [[[[|[[c|]] cs]]|e] w1]; simpl; rewrite <- ?app_assoc; simpl.
    2: destruct (JSString.nonempty (JSString.trim c)) eqn:Hc.
    all: eexists _, _, _; (split; [reflexivity|]);
      repeat split; auto using trim_idempotent; discriminate.
  - eexists _, _, _. split; [reflexivity|]. simpl.
    repeat split; reflexivity.
Qed.

(** X4: the test double returns what [isEnglish] returns whenever the
    detector throws or puts the target code on top, namely true; on the
    other texts it answers false exactly when the text contains
    [Bonjour].  It calls the detector once and never the remote. *)
Theorem mockIsEnglish_agreement text st r w1 :
  langdetect_detect svc text (world st) = (r, w1) ->
  (exists b, mockIsEnglish svc text st
             = (Normal b, mkMachine w1 (trace st ++ [Detect text])))
  /\ match r with
     | Normal detections =>
         if top_is_en detections
         then fst (mockIsEnglish svc text st) = Normal true
              /\ fst (isEnglish svc text st) = Normal true
         else fst (mockIsEnglish svc text st)
              = Normal (negb (JSString.includes text "Bonjour"))
     | Throw _ =>
         fst (mockIsEnglish svc text st) = Normal true
         /\ fst (isEnglish svc text st) = Normal true
     end.
Proof.
  intros Hd. rewrite isEnglish_run.
  unfold mockIsEnglish, try_catch, bind, detect, perform. rewrite Hd.
  destruct r as [ds|e]; simpl.
  - destruct (top_is_en ds); simpl; [eauto|].
    destruct (JSString.includes text "Bonjour"); simpl; eauto.
  - eauto.
Qed.

End Calls.

Lemma mockIsEnglish_agreement_witness :
  let svc := Script.services (Normal (Some [Script.guess "fr"]))
               (fun _ => Script.unavailable) in
  fst (mockIsEnglish svc "Bonjour le monde" Script.init) = Normal false.
Proof.
  exact (proj2 (mockIsEnglish_agreement
                  (Script.services (Normal (Some [Script.guess "fr"]))
                     (fun _ => Script.unavailable))
                  "Bonjour le monde" Script.init _ tt eq_refl)).
Defined.

(** ** More on the image extractor *)

Section ExtractorRuns.
Context {W : Type} `{JSON} (svc : Services W).

(** X5: every run of [analyzeImage] ends normally.  It makes the vision
    request first; after it either nothing is called, or the detector
    is called once, followed by at most one classification request, both
    on exactly the text that is returned.  It asks for no translation,
    fetches no file and sends no reply. *)
Theorem analyzeImage_calls url st :
  exists r st' evs,
    analyzeImage svc url st = (Normal r, st')
    /\ trace st' = trace st ++ ChatCreate (VisionRequest url) :: evs
    /\ replies evs = [] /\ translations evs = [] /\ file_requests evs = []
    /\ (detector_calls evs = [] /\ remote_calls evs = []
        \/ exists rc,
            Analysis.text r = JSStr rc
            /\ detector_calls evs = [rc]
            /\ (remote_calls evs = []
                \/ remote_calls evs = [ClassifyRequest rc])).
Proof.
  destruct (chat_completions_create svc (VisionRequest url) (world st))
    as [[[[|[content] rest]]|e] w1] eqn:Hc.
  - rewrite (analyzeImage_failed svc url st _ _ Hc) by reflexivity.
    eexists _, _, _. split; [reflexivity|]. simpl. split; [reflexivity|].
    simpl. auto 10.
  - destruct (parse_cases (response_content content))
      as [Hp | (v & Hp & Hnull & Hundef)].
    + pose proof (analyzeImage_unparsed svc url st content rest w1 Hc Hp) as Hu.
      simpl in Hu. destruct (JSString.includes _ _).
      * rewrite Hu. eexists _, _, _. split; [reflexivity|]. simpl.
        split; [reflexivity|]. simpl. auto 10.
      * destruct Hu as (b & st2 & Hb & ->).
        rewrite isEnglish_run in Hb. simpl in Hb.
        destruct (langdetect_detect svc (response_content content) w1)
          as [[ds|e] w2];
          [destruct (top_is_en ds);
           [|destruct (chat_completions_create svc
                         (ClassifyRequest (response_content content)) w2)
               as [[[[|c cs]]|e] w3]]|];
          simpl in Hb; injection Hb as <- <-;
          eexists _, _, _; (split; [reflexivity|]); simpl;
          rewrite <- ?app_assoc; simpl; (split; [reflexivity|]); simpl;
          repeat (split; [reflexivity|]); right;
          exists (response_content content); auto.
    + rewrite (analyzeImage_parsed svc url st content rest w1 v Hc Hp Hnull Hundef).
      eexists _, _, _. split; [reflexivity|]. simpl.
      split; [rewrite <- (app_nil_r [_]) at 1; reflexivity|]. simpl. auto 10.
  - rewrite (analyzeImage_failed svc url st _ _ Hc) by exact I.
    eexists _, _, _. split; [reflexivity|]. simpl. split; [reflexivity|].
    simpl. auto 10.
Qed.

(** X6: when the vision request throws, or its response has no first
    choice, [analyzeImage] returns the empty text with [isEnglish] true
    and consults neither the detector nor the remote classifier. *)
Theorem analyzeImage_request_failure url st r w1 :
  chat_completions_create svc (VisionRequest url) (world st) = (r, w1) ->
  match r with
  | Throw _ => True
  | Normal response => ChatCompletion.choices response = []
  end ->
  exists st',
    analyzeImage svc url st
    = (Normal {| Analysis.text := JSStr ""; Analysis.isEnglish := true |}, st')
    /\ world st' = w1
    /\ detector_calls (trace st') = detector_calls (trace st)
    /\ remote_calls (trace st')
       = remote_calls (trace st) ++ [VisionRequest url].
Proof.
  intros Hc Hr. rewrite (analyzeImage_failed svc url st r w1 Hc Hr).
  eexists. split; [reflexivity|]. simpl.
  rewrite detector_calls_app, remote_calls_app. simpl.
  rewrite app_nil_r. auto.
Qed.

(** X7: a content that parses to a number, a boolean, a string or an
    array is not re-classified: [analyzeImage] returns the empty text
    with [isEnglish] true, and the content itself is dropped. *)
Theorem analyzeImage_other_json url st content rest w1 v :
  chat_completions_create svc (VisionRequest url) (world st)
  = (Normal {| ChatCompletion.choices :=
                 {| ChatCompletion.content := content |} :: rest |}, w1) ->
  JSON_parse (response_content content) = Some v ->
  match v with
  | JSNumber _ | JSBool _ | JSStr _ | JSArray _ => True
  | JSUndefined | JSNull | JSObject _ => False
  end ->
  analyzeImage svc url st
  = (Normal {| Analysis.text := JSStr ""; Analysis.isEnglish := true |},
     mkMachine w1 (trace st ++ [ChatCreate (VisionRequest url)])).
Proof.
  intros Hc Hp Hv.
  rewrite (analyzeImage_parsed svc url st content rest w1 v Hc Hp)
    by (destruct v; try discriminate; contradiction).
  destruct v; try contradiction; reflexivity.
Qed.

(** X8: the text returned by [analyzeImage] is the empty string or a
    truthy value, so the handler's test [text && ...] fails only on the
    empty string. *)
Theorem analyzeImage_text_truthy url st r st' :
  analyzeImage svc url st = (Normal r, st') ->
  Analysis.text r = JSStr "" \/ truthy (Analysis.text r) = true.
Proof.
  intros Hrun.
  destruct (chat_completions_create svc (VisionRequest url) (world st))
    as [[[[|[content] rest]]|e] w1] eqn:Hc.
  - rewrite (analyzeImage_failed svc url st _ _ Hc) in Hrun by reflexivity.
    injection Hrun as <- _. auto.
  - destruct (parse_cases (response_content content))
      as [Hp | (v & Hp & Hnull & Hundef)].
    + pose proof (analyzeImage_unparsed svc url st content rest w1 Hc Hp) as Hu.
      simpl in Hu. destruct (JSString.includes _ _).
      * rewrite Hu in Hrun. injection Hrun as <- _. auto.
      * destruct Hu as (b & st2 & _ & Hu). rewrite Hu in Hrun.
        injection Hrun as <- _. right. simpl.
        apply or_default_nonempty. reflexivity.
    + rewrite (analyzeImage_parsed svc url st content rest w1 v Hc Hp Hnull Hundef)
        in Hrun.
      injection Hrun as <- _. simpl. unfold js_or.
      destruct (truthy (property v "text")) eqn:E; auto.
  - rewrite (analyzeImage_failed svc url st _ _ Hc) in Hrun by exact I.
    injection Hrun as <- _. auto.
Qed.

(** X9: [analyzeImage] returns [isEnglish] false in two cases only: the
    content parsed to an object whose [isEnglish] is the boolean false,
    or the content did not parse and [isEnglish], run on the returned
    text, answered false. *)
Theorem analyzeImage_false_origin url st r st' :
  analyzeImage svc url st = (Normal r, st') ->
  Analysis.isEnglish r = false ->
  (exists content rest w1 props,
      chat_completions_create svc (VisionRequest url) (world st)
      = (Normal {| ChatCompletion.choices :=
                     {| ChatCompletion.content := content |} :: rest |}, w1)
      /\ JSON_parse (response_content content) = Some (JSObject props)
      /\ props !! "isEnglish" = Some (JSBool false))
  \/ (exists rc st1,
         Analysis.text r = JSStr rc
         /\ JSString.nonempty rc = true
         /\ JSString.includes rc "NO_TEXT_FOUND" = false
         /\ isEnglish svc rc st1 = (Normal false, st')).
Proof.
  intros Hrun Hflag.
  destruct (chat_completions_create svc (VisionRequest url) (world st))
    as [[[[|[content] rest]]|e] w1] eqn:Hc.
  - rewrite (analyzeImage_failed svc url st _ _ Hc) in Hrun by reflexivity.
    injection Hrun as <- _. discriminate.
  - destruct (parse_cases (response_content content))
      as [Hp | (v & Hp & Hnull & Hundef)].
    + pose proof (analyzeImage_unparsed svc url st content rest w1 Hc Hp) as Hu.
      simpl in Hu.
      destruct (JSString.includes (response_content content) "NO_TEXT_FOUND")
        eqn:Hmark.
      * rewrite Hu in Hrun. injection Hrun as <- _. discriminate.
      * destruct Hu as (b & st2 & Hb & Hu). rewrite Hu in Hrun.
        injection Hrun as <- <-. simpl in Hflag. subst b.
        right. eexists _, _. split; [reflexivity|].
        split; [apply or_default_nonempty; reflexivity|].
        split; [exact Hmark | exact Hb].
    + rewrite (analyzeImage_parsed svc url st content rest w1 v Hc Hp Hnull Hundef)
        in Hrun.
      injection Hrun as <- _. simpl in Hflag.
      apply negb_false_iff in Hflag.
      destruct v; try discriminate Hflag.
      apply is_false_property in Hflag.
      left. exists content, rest, w1, props. auto.
  - rewrite (analyzeImage_failed svc url st _ _ Hc) in Hrun by exact I.
    injection Hrun as <- _. discriminate.
Qed.

(** X10: when [JSON.parse] reads the default response as the source
    writes it, a missing content, or one that is empty once trimmed,
    gives the empty text with [isEnglish] true and no further call. *)
Theorem analyzeImage_blank_content url st content rest w1 :
  JSON_parse default_response
  = Some (JSObject (<["isEnglish" := JSBool true]> (<["text" := JSStr ""]> ∅))) ->
  chat_completions_create svc (VisionRequest url) (world st)
  = (Normal {| ChatCompletion.choices :=
                 {| ChatCompletion.content := content |} :: rest |}, w1) ->
  content = None \/ (exists c, content = Some c /\ JSString.trim c = "") ->
  analyzeImage svc url st
  = (Normal {| Analysis.text := JSStr ""; Analysis.isEnglish := true |},
     mkMachine w1 (trace st ++ [ChatCreate (VisionRequest url)])).
Proof.
  intros Hdefault Hc Hblank.
  assert (Hrc : response_content content = default_response).
  { unfold response_content.
    destruct Hblank as [-> | (c & -> & Hc')]; simpl; [|rewrite Hc'];
      reflexivity. }
  rewrite <- Hrc in Hdefault.
  rewrite (analyzeImage_parsed svc url st content rest w1 _ Hc Hdefault)
    by discriminate.
  reflexivity.
Qed.

End ExtractorRuns.

(** ** More on the dispatcher *)

Section Files.
Context {W : Type} `{JSON} (svc : Services W).

Lemma isEnglish_no_file text st r st' :
  isEnglish svc text st = (r, st') ->
  file_requests (trace st') = file_requests (trace st).
Proof.
  rewrite isEnglish_run.
  destruct (langdetect_detect svc text (world st)) as [[ds|e] w1];
    [destruct (top_is_en ds);
     [|destruct (chat_completions_create svc (ClassifyRequest text) w1)
         as [[[[|c cs]]|e] w2]]|];
    simpl; intros [= <- <-]; simpl;
    rewrite ?file_requests_app; simpl; rewrite ?app_nil_r; reflexivity.
Qed.

Lemma translateText_no_file text st r st' :
  translateText svc text st = (r, st') ->
  file_requests (trace st') = file_requests (trace st).
Proof.
  rewrite translateText_run. destruct (converts text).
  2:{ intros [= <- <-]. simpl. rewrite file_requests_app. apply app_nil_r. }
  destruct (chat_completions_create svc (TranslateRequest text) (world st))
    as [[[[|c cs]]|e] w1]; simpl; intros [= <- <-]; simpl;
    rewrite ?file_requests_app; simpl; rewrite ?app_nil_r; reflexivity.
Qed.

Lemma analyzeImage_no_file url st r st' :
  analyzeImage svc url st = (r, st') ->
  file_requests (trace st') = file_requests (trace st).
Proof.
  destruct (chat_completions_create svc (VisionRequest url) (world st))
    as [[[[|[content] rest]]|e] w1] eqn:Hc.
  - rewrite (analyzeImage_failed svc url st _ _ Hc) by reflexivity.
    intros [= <- <-]. simpl. rewrite file_requests_app. apply app_nil_r.
  - destruct (parse_cases (response_content content))
      as [Hp | (v & Hp & Hnull & Hundef)].
    + pose proof (analyzeImage_unparsed svc url st content rest w1 Hc Hp) as Hu.
      simpl in Hu. destruct (JSString.includes _ _).
      * rewrite Hu. intros [= <- <-]. simpl. rewrite file_requests_app.
        apply app_nil_r.
      * destruct Hu as (b & st2 & Hb & ->). intros [= <- <-].
        apply isEnglish_no_file in Hb. simpl in Hb.
        rewrite file_requests_app in Hb. simpl in Hb.
        rewrite app_nil_r in Hb. exact Hb.
    + rewrite (analyzeImage_parsed svc url st content rest w1 v Hc Hp Hnull Hundef).
      intros [= <- <-]. simpl. rewrite file_requests_app. apply app_nil_r.
  - rewrite (analyzeImage_failed svc url st _ _ Hc) by exact I.
    intros [= <- <-]. simpl. rewrite file_requests_app. apply app_nil_r.
Qed.

Lemma sendMessage_no_file chat text reply_to st r st' :
  sendMessage svc chat text reply_to st = (r, st') ->
  file_requests (trace st') = file_requests (trace st).
Proof.
  unfold sendMessage, perform.
  destruct (api_sendMessage svc chat text reply_to (world st)) as [r' w'].
  intros [= <- <-]. simpl. rewrite file_requests_app. apply app_nil_r.
Qed.

End Files.

Section Handler.
Context {W : Type} `{JSON} (svc : Services W) (TOKEN : string).

(** The ways the text block can run. *)
Lemma handle_text_cases message st r st' :
  handle_text svc message st = (r, st') ->
  (r = Normal tt /\ st' = st
   /\ (Message.text message = None \/ Message.text message = Some ""))
  \/ (exists s,
         Message.text message = Some s /\ JSString.nonempty s = true
         /\ isEnglish svc s st = (Normal true, st') /\ r = Normal tt)
  \/ (exists s st1 t st2,
         Message.text message = Some s /\ JSString.nonempty s = true
         /\ isEnglish svc s st = (Normal false, st1)
         /\ translateText svc (JSStr s) st1 = (Normal t, st2)
         /\ sendMessage svc (Message.chat_id message) (reply_text t)
                        (Message.message_id message) st2 = (r, st')).
Proof.
  intros Hrun.
  destruct (Message.text message) as [s|] eqn:Ht;
    [|rewrite handle_text_skip in Hrun by auto; injection Hrun as <- <-; auto].
  destruct (JSString.nonempty s) eqn:Hs;
    [|destruct s; [|discriminate];
      rewrite handle_text_skip in Hrun by auto; injection Hrun as <- <-; auto].
  destruct (isEnglish_total svc s st) as (b & st1 & He).
  rewrite (handle_text_run svc message s st b st1 Ht Hs He) in Hrun.
  destruct b.
  - injection Hrun as <- <-. right. left. eauto.
  - destruct (translateText_total svc (JSStr s) st1) as (t & st2 & Htr).
    rewrite Htr in Hrun. right. right. exists s, st1, t, st2. auto.
Qed.

(** The ways the photo block can run. *)
Lemma handle_photo_cases message st r st' :
  handle_photo svc TOKEN message st = (r, st') ->
  (r = Normal tt /\ st' = st
   /\ (Message.photo message = None \/ Message.photo message = Some []))
  \/ exists photos photo,
      Message.photo message = Some photos /\ last photos = Some photo
      /\ let asked := trace st ++ [GetFile (PhotoSize.file_id photo)] in
         (exists e w1,
             api_getFile svc (PhotoSize.file_id photo) (world st) = (Throw e, w1)
             /\ r = Throw e /\ st' = mkMachine w1 asked)
         \/ (exists f w1,
                api_getFile svc (PhotoSize.file_id photo) (world st)
                = (Normal f, w1)
                /\ (File.file_path f = None \/ File.file_path f = Some "")
                /\ r = Normal tt
                /\ st' = mkMachine w1
                           (asked ++ [ConsoleError "No file path found for image"]))
         \/ (exists path w1 a st1,
                api_getFile svc (PhotoSize.file_id photo) (world st)
                = (Normal {| File.file_path := Some path |}, w1)
                /\ JSString.nonempty path = true
                /\ analyzeImage svc (file_url TOKEN path) (mkMachine w1 asked)
                   = (Normal a, st1)
                /\ (truthy (Analysis.text a) && negb (Analysis.isEnglish a) = false
                    /\ r = Normal tt /\ st' = st1
                    \/ truthy (Analysis.text a) && negb (Analysis.isEnglish a) = true
                       /\ exists t st2,
                           translateText svc (Analysis.text a) st1
                           = (Normal t, st2)
                           /\ sendMessage svc (Message.chat_id message)
                                (reply_text t) (Message.message_id message) st2
                              = (r, st'))).
Proof.
  intros Hrun.
  destruct (Message.photo message) as [photos|] eqn:Hp;
    [|rewrite handle_photo_skip in Hrun by auto; injection Hrun as <- <-; auto].
  destruct (last photos) as [photo|] eqn:Hl.
  2:{ apply last_None in Hl. subst photos.
      rewrite handle_photo_skip in Hrun by auto. injection Hrun as <- <-. auto. }
  right. exists photos, photo. split; [reflexivity|]. split; [exact Hl|].
  intros asked.
  destruct (api_getFile svc (PhotoSize.file_id photo) (world st))
    as [[[path]|e] w1] eqn:Hf.
  - destruct path as [path|].
    + destruct (JSString.nonempty path) eqn:Hpath.
      * destruct (analyzeImage_total svc (file_url TOKEN path) (mkMachine w1 asked))
          as (a & st1 & Ha).
        rewrite (handle_photo_run svc TOKEN message photos photo path st w1 a st1
                   Hp Hl Hf Hpath Ha) in Hrun.
        right. right. exists path, w1, a, st1. repeat split; auto.
        destruct (truthy (Analysis.text a) && negb (Analysis.isEnglish a)).
        -- right. split; [reflexivity|].
           destruct (translateText_total svc (Analysis.text a) st1)
             as (t & st2 & Htr).
           rewrite Htr in Hrun. eauto.
        -- injection Hrun as <- <-. auto.
      * right. left. exists {| File.file_path := Some path |}, w1.
        destruct path; [|discriminate].
        unfold handle_photo, bind, getFile, perform, console_error in Hrun.
        rewrite Hp, Hl, Hf in Hrun. simpl in Hrun.
        injection Hrun as <- <-. auto.
    + right. left. exists {| File.file_path := None |}, w1.
      unfold handle_photo, bind, getFile, perform, console_error in Hrun.
      rewrite Hp, Hl, Hf in Hrun. simpl in Hrun.
      injection Hrun as <- <-. auto.
  - left. exists e, w1.
    unfold handle_photo, bind, getFile, perform in Hrun.
    rewrite Hp, Hl, Hf in Hrun. simpl in Hrun.
    injection Hrun as <- <-. auto.
Qed.

End Handler.

Section HandlerProperties.
Context {W : Type} `{JSON} (svc : Services W) (TOKEN : string).

(** What the text block adds to the replies and translation requests. *)
Lemma handle_text_summary message st r st' :
  handle_text svc message st = (r, st') ->
  file_requests (trace st') = file_requests (trace st)
  /\ (r = Normal tt
      /\ replies (trace st') = replies (trace st)
      /\ translations (trace st') = translations (trace st)
      \/ exists s t,
          Message.text message = Some s
          /\ replies (trace st')
             = replies (trace st)
               ++ [(Message.chat_id message, reply_text t,
                    Message.message_id message)]
          /\ translations (trace st') = translations (trace st) ++ [JSStr s]).
Proof.
  intros Hrun.
  destruct (handle_text_cases svc message st r st' Hrun)
    as [(-> & -> & _) | [(s & _ & _ & He & ->)
                        | (s & st1 & t & st2 & Ht & _ & He & Htr & Hsend)]].
  - auto.
  - pose proof (isEnglish_no_file svc s st _ _ He).
    apply isEnglish_quiet in He as [? ?]. auto.
  - pose proof (isEnglish_no_file svc s st _ _ He) as F1.
    pose proof (translateText_no_file svc _ st1 _ _ Htr) as F2.
    pose proof (sendMessage_no_file svc _ _ _ st2 _ _ Hsend) as F3.
    apply isEnglish_quiet in He as [R1 Q1].
    apply translateText_trace in Htr as [R2 Q2].
    apply sendMessage_trace in Hsend as [R3 Q3].
    split; [congruence|]. right. exists s, t.
    rewrite R3, Q3, R2, Q2, R1, Q1. auto.
Qed.

(** What the photo block adds. *)
Lemma handle_photo_summary message st r st' :
  handle_photo svc TOKEN message st = (r, st') ->
  (exists fr,
      file_requests (trace st') = file_requests (trace st) ++ fr
      /\ (fr = []
          \/ exists photos photo,
              Message.photo message = Some photos
              /\ last photos = Some photo
              /\ fr = [PhotoSize.file_id photo]))
  /\ (replies (trace st') = replies (trace st)
      /\ translations (trace st') = translations (trace st)
      \/ exists v t,
          replies (trace st')
          = replies (trace st)
            ++ [(Message.chat_id message, reply_text t,
                 Message.message_id message)]
          /\ translations (trace st')
             = translations (trace st) ++ (if converts v then [v] else [])).
Proof.
  intros Hrun.
  destruct (handle_photo_cases svc TOKEN message st r st' Hrun)
    as [(-> & -> & _) | (photos & photo & Hp & Hl & Hcases)].
  { split; [exists []; rewrite app_nil_r; auto | auto]. }
  simpl in Hcases.
  assert (Hasked : forall w1 : W,
             let asked := mkMachine w1
                            (trace st ++ [GetFile (PhotoSize.file_id photo)]) in
             file_requests (trace asked)
             = file_requests (trace st) ++ [PhotoSize.file_id photo]
             /\ replies (trace asked) = replies (trace st)
             /\ translations (trace asked) = translations (trace st)).
  { intros w1. simpl.
    rewrite file_requests_app, replies_app, translations_app. simpl.
    rewrite !app_nil_r. auto. }
  destruct Hcases
    as [(e & w1 & _ & -> & ->)
       | [(f & w1 & _ & _ & -> & ->)
         | (path & w1 & a & st1 & _ & _ & Ha & Hfire)]].
  - destruct (Hasked w1) as (F & R & Q). simpl in *.
    split; [|auto].
    exists [PhotoSize.file_id photo].
    split; [exact F | right; exists photos, photo; auto].
  - destruct (Hasked w1) as (F & R & Q). simpl in *.
    rewrite file_requests_app, replies_app, translations_app. simpl.
    rewrite !app_nil_r.
    split; [|auto].
    exists [PhotoSize.file_id photo].
    split; [exact F | right; exists photos, photo; auto].
  - destruct (Hasked w1) as (F & R & Q).
    pose proof (analyzeImage_no_file svc _ _ _ _ Ha) as F1.
    apply analyzeImage_quiet in Ha as [R1 Q1].
    destruct Hfire as [(_ & -> & ->) | (_ & t & st2 & Htr & Hsend)].
    + split; [exists [PhotoSize.file_id photo]; split; [congruence | eauto 6]|].
      left. split; congruence.
    + pose proof (translateText_no_file svc _ st1 _ _ Htr) as F2.
      pose proof (sendMessage_no_file svc _ _ _ st2 _ _ Hsend) as F3.
      apply translateText_trace in Htr as [R2 Q2].
      apply sendMessage_trace in Hsend as [R3 Q3].
      split; [exists [PhotoSize.file_id photo];
              split; [congruence | right; exists photos, photo; auto]|].
      right. exists (Analysis.text a), t.
      rewrite R3, Q3, R2, Q2, R1, Q1, R, Q. auto.
Qed.

(** X11: whatever the post and the services, the handler sends at most
    two replies, each built from the template and addressed to the chat
    and the message id of the post.  It never asks for more
    translations than it sends replies, and every text it asks to
    translate converts to a string. *)
Theorem channel_post_replies message st :
  let final := snd (channel_post svc TOKEN (Some message) st) in
  exists rs ts,
    replies (trace final) = replies (trace st) ++ rs
    /\ translations (trace final) = translations (trace st) ++ ts
    /\ (List.length ts <= List.length rs)%nat
    /\ (List.length rs <= 2)%nat
    /\ Forall (fun x => exists t,
                   x = (Message.chat_id message, reply_text t,
                        Message.message_id message)) rs
    /\ Forall (fun v => converts v = true) ts.
Proof.
  intros final. subst final. unfold channel_post, bind.
  destruct (handle_text svc message st) as [r1 st1] eqn:H1.
  apply handle_text_summary in H1 as (_ & H1).
  assert (Htext : exists rs1 ts1,
             replies (trace st1) = replies (trace st) ++ rs1
             /\ translations (trace st1) = translations (trace st) ++ ts1
             /\ (List.length ts1 <= List.length rs1)%nat
             /\ (List.length rs1 <= 1)%nat
             /\ Forall (fun x => exists t,
                            x = (Message.chat_id message, reply_text t,
                                 Message.message_id message)) rs1
             /\ Forall (fun v => converts v = true) ts1).
  { destruct H1 as [(_ & R & Q) | (s & t & _ & R & Q)].
    - exists [], []. rewrite !app_nil_r. repeat split; auto.
    - exists [(Message.chat_id message, reply_text t,
               Message.message_id message)], [JSStr s].
      repeat split; auto; constructor; eauto. }
  destruct Htext as (rs1 & ts1 & R1 & Q1 & L1 & B1 & A1 & C1).
  destruct r1 as [[]|e]; simpl.
  2:{ exists rs1, ts1. repeat split; auto. }
  destruct (handle_photo svc TOKEN message st1) as [r2 st2] eqn:H2.
  apply handle_photo_summary in H2 as (_ & H2). simpl.
  destruct H2 as [(R2 & Q2) | (v & t & R2 & Q2)].
  - exists rs1, ts1. rewrite R2, Q2. repeat split; auto.
  - exists (rs1 ++ [(Message.chat_id message, reply_text t,
                     Message.message_id message)]),
           (ts1 ++ (if converts v then [v] else [])).
    rewrite R2, Q2, R1, Q1, <- !app_assoc, !length_app.
    destruct (converts v) eqn:Hv; simpl;
      repeat split; auto; try lia;
      apply Forall_app; split; auto; constructor; eauto.
Qed.

(** X12: the handler asks Telegram for at most one file per post, the
    one of the last photo of the post. *)
Theorem channel_post_file_requests message st :
  let final := snd (channel_post svc TOKEN (Some message) st) in
  exists fr,
    file_requests (trace final) = file_requests (trace st) ++ fr
    /\ (fr = []
        \/ exists photos photo,
            Message.photo message = Some photos
            /\ last photos = Some photo
            /\ fr = [PhotoSize.file_id photo]).
Proof.
  intros final. subst final. unfold channel_post, bind.
  destruct (handle_text svc message st) as [r1 st1] eqn:H1.
  apply handle_text_summary in H1 as (F1 & _).
  destruct r1 as [[]|e]; simpl.
  2:{ exists []. rewrite app_nil_r. auto. }
  destruct (handle_photo svc TOKEN message st1) as [r2 st2] eqn:H2.
  apply handle_photo_summary in H2 as ((fr & F2 & Hfr) & _). simpl.
  exists fr. rewrite F2, F1. auto.
Qed.

(** X13: while the chat-completion service is down, the handler sends
    no reply and asks for no translation, whatever the post. *)
Theorem channel_post_outage post st :
  (forall request w, exists e w',
        chat_completions_create svc request w = (Throw e, w')) ->
  let final := snd (channel_post svc TOKEN post st) in
  replies (trace final) = replies (trace st)
  /\ translations (trace final) = translations (trace st).
Proof.
  intros Hdown final. subst final.
  destruct post as [message|];
    [|simpl; rewrite replies_app, translations_app; simpl;
      rewrite !app_nil_r; auto].
  unfold channel_post, bind.
  destruct (handle_text svc message st) as [r1 st1] eqn:H1.
  assert (Htext : r1 = Normal tt
                  /\ replies (trace st1) = replies (trace st)
                  /\ translations (trace st1) = translations (trace st)).
  { destruct (handle_text_cases svc message st r1 st1 H1)
      as [(-> & -> & _) | [(s & _ & _ & He & ->)
                          | (s & st' & t & st2 & _ & _ & He & _)]].
    - auto.
    - apply isEnglish_quiet in He as [? ?]. auto.
    - apply isEnglish_false_inv in He
        as (ds & w1 & c & cs & w2 & _ & _ & Hc & _).
      destruct (Hdown (ClassifyRequest s) w1) as (e & w' & Hd). congruence. }
  destruct Htext as (-> & R1 & Q1). simpl.
  destruct (handle_photo svc TOKEN message st1) as [r2 st2] eqn:H2. simpl.
  destruct (handle_photo_cases svc TOKEN message st1 r2 st2 H2)
    as [(_ & -> & _) | (photos & photo & _ & _ & Hcases)]; [auto|].
  simpl in Hcases.
  destruct Hcases
    as [(e & w1 & _ & _ & ->)
       | [(f & w1 & _ & _ & _ & ->)
         | (path & w1 & a & st' & _ & _ & Ha & Hfire)]]; simpl.
  - rewrite replies_app, translations_app. simpl. rewrite !app_nil_r. auto.
  - rewrite !replies_app, !translations_app. simpl. rewrite !app_nil_r. auto.
  - destruct (Hdown (VisionRequest (file_url TOKEN path)) w1) as (e & w' & Hd).
    rewrite (analyzeImage_failed svc (file_url TOKEN path)
               (mkMachine w1 (trace st1 ++ [GetFile (PhotoSize.file_id photo)]))
               (Throw e) w' Hd I) in Ha.
    injection Ha as <- <-.
    destruct Hfire as [(_ & _ & ->) | (Hf & _)]; [|discriminate Hf].
    simpl. rewrite !replies_app, !translations_app. simpl.
    rewrite !app_nil_r. auto.
Qed.

(** X14: the handler ends in an exception only through the Telegram
    API: if [getFile] and [sendMessage] do not throw, it returns
    normally whatever the detector and the chat-completion client do. *)
Theorem channel_post_returns post st :
  (forall file_id w, exists f w',
        api_getFile svc file_id w = (Normal f, w')) ->
  (forall chat text reply_to w, exists w',
        api_sendMessage svc chat text reply_to w = (Normal tt, w')) ->
  exists st', channel_post svc TOKEN post st = (Normal tt, st').
Proof.
  intros Hfile Hsend.
  assert (Hs : forall chat text reply_to st0 r st',
             sendMessage svc chat text reply_to st0 = (r, st') -> r = Normal tt).
  { intros chat text reply_to st0 r st'. unfold sendMessage, perform.
    destruct (Hsend chat text reply_to (world st0)) as (w' & ->).
    intros [= <- _]. reflexivity. }
  destruct post as [message|]; [|simpl; eauto].
  unfold channel_post, bind.
  destruct (handle_text svc message st) as [r1 st1] eqn:H1.
  assert (r1 = Normal tt) as ->.
  { destruct (handle_text_cases svc message st r1 st1 H1)
      as [(-> & _) | [(s & _ & _ & _ & ->)
                     | (s & st' & t & st2 & _ & _ & _ & _ & Hsent)]];
      eauto. }
  destruct (handle_photo svc TOKEN message st1) as [r2 st2] eqn:H2.
  assert (r2 = Normal tt) as ->; [|eauto].
  destruct (handle_photo_cases svc TOKEN message st1 r2 st2 H2)
    as [(-> & _) | (photos & photo & _ & _ & Hcases)]; [reflexivity|].
  simpl in Hcases.
  destruct Hcases
    as [(e & w1 & Hf & _)
       | [(f & w1 & _ & _ & -> & _)
         | (path & w1 & a & st' & _ & _ & _ & Hfire)]].
  - destruct (Hfile (PhotoSize.file_id photo) (world st1)) as (f & w' & Hf').
    congruence.
  - reflexivity.
  - destruct Hfire as [(_ & -> & _) | (_ & t & st3 & _ & Hsent)]; eauto.
Qed.

(** X15: when sending the reply to the text throws, the handler throws
    the same exception at once: the photos of the post are not looked
    at. *)
Theorem channel_post_send_failure message s st st1 t st2 e w3 :
  Message.text message = Some s ->
  JSString.nonempty s = true ->
  isEnglish svc s st = (Normal false, st1) ->
  translateText svc (JSStr s) st1 = (Normal t, st2) ->
  api_sendMessage svc (Message.chat_id message) (reply_text t)
                  (Message.message_id message) (world st2)
  = (Throw e, w3) ->
  channel_post svc TOKEN (Some message) st
  = (Throw e,
     mkMachine w3
       (trace st2 ++ [SendMessage (Message.chat_id message) (reply_text t)
                                  (Message.message_id message)]))
  /\ file_requests (trace st2) = file_requests (trace st).
Proof.
  intros Ht Hs He Htr Hsend. split.
  - unfold channel_post, bind.
    rewrite (handle_text_run svc message s st false st1 Ht Hs He), Htr.
    unfold sendMessage, perform. rewrite Hsend. reflexivity.
  - apply isEnglish_no_file in He. apply translateText_no_file in Htr.
    congruence.
Qed.

(** X16: when [getFile] throws, the photo block throws the same
    exception; when the file has no path, or an empty one, the block
    logs an error and returns.  In both cases nothing is sent to the
    chat-completion service and no reply is sent. *)
Theorem handle_photo_without_path message photos photo st r w1 :
  Message.photo message = Some photos ->
  last photos = Some photo ->
  api_getFile svc (PhotoSize.file_id photo) (world st) = (r, w1) ->
  match r with
  | Throw _ => True
  | Normal f => File.file_path f = None \/ File.file_path f = Some ""
  end ->
  exists st',
    handle_photo svc TOKEN message st
    = (match r with Throw e => Throw e | Normal _ => Normal tt end, st')
    /\ world st' = w1
    /\ remote_calls (trace st') = remote_calls (trace st)
    /\ replies (trace st') = replies (trace st)
    /\ file_requests (trace st')
       = file_requests (trace st) ++ [PhotoSize.file_id photo].
Proof.
  intros Hp Hl Hf Hr.
  unfold handle_photo, bind, getFile, perform, console_error.
  rewrite Hp, Hl, Hf.
  destruct r as [[path]|e]; simpl in *.
  - destruct Hr as [-> | ->]; simpl; eexists; (split; [reflexivity|]); simpl;
      rewrite !remote_calls_app, !replies_app, !file_requests_app; simpl;
      rewrite !app_nil_r; auto.
  - eexists. split; [reflexivity|]. simpl.
    rewrite remote_calls_app, replies_app, file_requests_app. simpl.
    rewrite !app_nil_r. auto.
Qed.

End HandlerProperties.

Section HandlerPaths.
Context {W : Type} `{JSON} (svc : Services W) (TOKEN : string).

(** X17: a text post on which the detector puts the target code on top
    costs one detector call and nothing else: no remote call, no file
    request, no reply. *)
Theorem channel_post_english_text message s st d ds w1 :
  Message.text message = Some s ->
  JSString.nonempty s = true ->
  Message.photo message = None ->
  langdetect_detect svc s (world st) = (Normal (Some (d :: ds)), w1) ->
  LanguageDetection.lang d = "en" ->
  channel_post svc TOKEN (Some message) st
  = (Normal tt, mkMachine w1 (trace st ++ [Detect s])).
Proof.
  intros Ht Hs Hp Hd Hlang.
  assert (He : isEnglish svc s st
               = (Normal true, mkMachine w1 (trace st ++ [Detect s]))).
  { rewrite isEnglish_run, Hd. simpl. rewrite Hlang. reflexivity. }
  unfold channel_post, bind.
  rewrite (handle_text_run svc message s st true _ Ht Hs He).
  apply handle_photo_skip. auto.
Qed.

(** X18: a response of the classification request that has no choice is
    treated like a failed call: [isEnglish] returns true and logs the
    error. *)
Theorem isEnglish_no_choice text st detections w1 w2 :
  langdetect_detect svc text (world st) = (Normal detections, w1) ->
  top_is_en detections = false ->
  chat_completions_create svc (ClassifyRequest text) w1
  = (Normal {| ChatCompletion.choices := [] |}, w2) ->
  isEnglish svc text st
  = (Normal true,
     mkMachine w2
       (trace st ++ [Detect text; ChatCreate (ClassifyRequest text);
                     ConsoleError "Error detecting language:"])).
Proof.
  intros Hd Htop Hc. rewrite isEnglish_run, Hd, Htop, Hc. simpl.
  rewrite <- app_assoc. reflexivity.
Qed.

End HandlerPaths.

(** ** Concrete runs of the further properties *)

Lemma analyzeImage_request_failure_witness :
  let svc := Script.services (Normal None) (fun _ => Script.unavailable) in
  exists st',
    analyzeImage (H:=host_json) svc "https://example.org/image.jpg" Script.init
    = (Normal {| Analysis.text := JSStr ""; Analysis.isEnglish := true |}, st')
    /\ world st' = tt
    /\ detector_calls (trace st') = detector_calls []
    /\ remote_calls (trace st')
       = remote_calls [] ++ [VisionRequest "https://example.org/image.jpg"].
Proof.
  exact (analyzeImage_request_failure (H:=host_json)
           (Script.services (Normal None) (fun _ => Script.unavailable))
           "https://example.org/image.jpg" Script.init _ tt eq_refl I).
Defined.

Lemma analyzeImage_other_json_witness :
  let svc := Script.services (Normal None)
               (fun _ => Normal (Script.reply (Some "123"))) in
  analyzeImage (H:=host_json) svc "https://example.org/image.jpg" Script.init
  = (Normal {| Analysis.text := JSStr ""; Analysis.isEnglish := true |},
     mkMachine tt
       ([] ++ [ChatCreate (VisionRequest "https://example.org/image.jpg")])).
Proof.
  intros svc.
  assert (Hp : JSON_parse (JSON:=host_json) (response_content (Some "123"))
               = Some (JSNumber (QArith_base.Qmake 123 1)))
    by (vm_compute; reflexivity).
  exact (analyzeImage_other_json (H:=host_json) svc
           "https://example.org/image.jpg" Script.init (Some "123") [] tt _
           eq_refl Hp I).
Defined.

Lemma analyzeImage_text_truthy_witness :
  JSStr "Bonjour" = JSStr "" \/ truthy (JSStr "Bonjour") = true.
Proof.
  pose (svc := Script.services (Normal None)
                 (fun _ => Normal (Script.reply
                                     (Some (Script.structured "Bonjour" "false"))))).
  assert (Hrun : analyzeImage (H:=host_json) svc
                   "https://example.org/image.jpg" Script.init
                 = (Normal {| Analysis.text := JSStr "Bonjour";
                              Analysis.isEnglish := false |},
                    mkMachine tt
                      [ChatCreate (VisionRequest "https://example.org/image.jpg")]))
    by (vm_compute; reflexivity).
  exact (analyzeImage_text_truthy (H:=host_json) svc _ _ _ _ Hrun).
Defined.

Lemma analyzeImage_false_origin_witness :
  let svc := Script.services (Normal (Some []))
               (Script.by_kind (Normal (Script.reply (Some "french")))
                               (Normal (Script.reply (Some "Bonjour le monde")))
                               Script.unavailable) in
  exists st',
    analyzeImage (H:=host_json) svc "https://example.org/image.jpg" Script.init
    = (Normal {| Analysis.text := JSStr "Bonjour le monde";
                 Analysis.isEnglish := false |}, st')
    /\ ((exists content rest w1 props,
            chat_completions_create svc
              (VisionRequest "https://example.org/image.jpg") tt
            = (Normal {| ChatCompletion.choices :=
                           {| ChatCompletion.content := content |} :: rest |},
               w1)
            /\ JSON_parse (JSON:=host_json) (response_content content)
               = Some (JSObject props)
            /\ props !! "isEnglish" = Some (JSBool false))
        \/ (exists rc st1,
               JSStr "Bonjour le monde" = JSStr rc
               /\ JSString.nonempty rc = true
               /\ JSString.includes rc "NO_TEXT_FOUND" = false
               /\ isEnglish svc rc st1 = (Normal false, st'))).
Proof.
  intros svc.
  assert (Hrun : analyzeImage (H:=host_json) svc
                   "https://example.org/image.jpg" Script.init
                 = (Normal {| Analysis.text := JSStr "Bonjour le monde";
                              Analysis.isEnglish := false |},
                    mkMachine tt
                      [ChatCreate (VisionRequest "https://example.org/image.jpg");
                       ConsoleError "Error parsing JSON response from OpenAI:";
                       Detect "Bonjour le monde";
                       ChatCreate (ClassifyRequest "Bonjour le monde")]))
    by (vm_compute; reflexivity).
  eexists. split; [exact Hrun|].
  exact (analyzeImage_false_origin (H:=host_json) svc _ _ _ _ Hrun eq_refl).
Defined.

Lemma analyzeImage_blank_content_witness :
  let svc := Script.services (Normal None)
               (fun _ => Normal (Script.reply (Some "   "))) in
  analyzeImage (H:=host_json) svc "https://example.org/image.jpg" Script.init
  = (Normal {| Analysis.text := JSStr ""; Analysis.isEnglish := true |},
     mkMachine tt
       ([] ++ [ChatCreate (VisionRequest "https://example.org/image.jpg")])).
Proof.
  exact (analyzeImage_blank_content (H:=host_json)
           (Script.services (Normal None)
              (fun _ => Normal (Script.reply (Some "   "))))
           "https://example.org/image.jpg" Script.init (Some "   ") [] tt
           parse_default_response eq_refl
           (or_intror (ex_intro _ "   " (conj eq_refl eq_refl)))).
Defined.

Lemma channel_post_outage_witness :
  let svc := Script.services (Normal (Some [Script.guess "fr"]))
               (fun _ => Script.unavailable) in
  let post := {| Message.message_id := 123; Message.chat_id := 456;
                 Message.text := Some "Bonjour le monde";
                 Message.photo :=
                   Some [ {| PhotoSize.file_id := "large_photo_id" |} ] |} in
  let final := snd (channel_post (H:=host_json) svc "fake-token" (Some post)
                                 Script.init) in
  replies (trace final) = [] /\ translations (trace final) = [].
Proof.
  exact (channel_post_outage (H:=host_json)
           (Script.services (Normal (Some [Script.guess "fr"]))
              (fun _ => Script.unavailable))
           "fake-token"
           (Some {| Message.message_id := 123; Message.chat_id := 456;
                    Message.text := Some "Bonjour le monde";
                    Message.photo :=
                      Some [ {| PhotoSize.file_id := "large_photo_id" |} ] |})
           Script.init
           (fun _ w => ex_intro _ _ (ex_intro _ w eq_refl))).
Defined.

Lemma channel_post_returns_witness :
  let svc := Script.services (Throw (ServiceError "langdetect failed"))
               (fun _ => Script.unavailable) in
  let post := {| Message.message_id := 123; Message.chat_id := 456;
                 Message.text := Some "Bonjour le monde";
                 Message.photo :=
                   Some [ {| PhotoSize.file_id := "large_photo_id" |} ] |} in
  exists st',
    channel_post (H:=host_json) svc "fake-token" (Some post) Script.init
    = (Normal tt, st').
Proof.
  exact (channel_post_returns (H:=host_json)
           (Script.services (Throw (ServiceError "langdetect failed"))
              (fun _ => Script.unavailable))
           "fake-token"
           (Some {| Message.message_id := 123; Message.chat_id := 456;
                    Message.text := Some "Bonjour le monde";
                    Message.photo :=
                      Some [ {| PhotoSize.file_id := "large_photo_id" |} ] |})
           Script.init
           (fun _ w => ex_intro _ _ (ex_intro _ w eq_refl))
           (fun _ _ _ w => ex_intro _ w eq_refl)).
Defined.

Lemma channel_post_send_failure_witness :
  let svc := Script.telegram (Normal (Some [Script.guess "fr"]))
               (Script.by_kind (Normal (Script.reply (Some "french")))
                               Script.unavailable
                               (Normal (Script.reply (Some "Hello world"))))
               (Normal {| File.file_path := Some "photos/file_1.jpg" |})
               (Throw (ServiceError "chat not found")) in
  let post := {| Message.message_id := 123; Message.chat_id := 456;
                 Message.text := Some "Bonjour le monde";
                 Message.photo :=
                   Some [ {| PhotoSize.file_id := "large_photo_id" |} ] |} in
  fst (channel_post (H:=host_json) svc "fake-token" (Some post) Script.init)
  = Throw (ServiceError "chat not found")
  /\ file_requests
       (trace (snd (channel_post (H:=host_json) svc "fake-token" (Some post)
                                 Script.init))) = [].
Proof.
  intros svc post.
  destruct (channel_post_send_failure (H:=host_json) svc "fake-token" post
              "Bonjour le monde" Script.init
              (mkMachine tt [Detect "Bonjour le monde";
                             ChatCreate (ClassifyRequest "Bonjour le monde")])
              "Hello world"
              (mkMachine tt [Detect "Bonjour le monde";
                             ChatCreate (ClassifyRequest "Bonjour le monde");
                             ChatCreate
                               (TranslateRequest (JSStr "Bonjour le monde"))])
              (ServiceError "chat not found") tt
              eq_refl eq_refl eq_refl eq_refl eq_refl) as [Hrun _].
  rewrite Hrun. split; reflexivity.
Defined.

Lemma handle_photo_without_path_witness :
  let svc := Script.telegram (Normal None) (fun _ => Script.unavailable)
               (Normal {| File.file_path := None |}) (Normal tt) in
  let post := {| Message.message_id := 123; Message.chat_id := 456;
                 Message.text := None;
                 Message.photo :=
                   Some [ {| PhotoSize.file_id := "small_photo_id" |};
                          {| PhotoSize.file_id := "large_photo_id" |} ] |} in
  exists st',
    handle_photo (H:=host_json) svc "fake-token" post Script.init
    = (Normal tt, st')
    /\ world st' = tt
    /\ remote_calls (trace st') = remote_calls []
    /\ replies (trace st') = replies []
    /\ file_requests (trace st') = file_requests [] ++ ["large_photo_id"].
Proof.
  intros svc post.
  exact (handle_photo_without_path (H:=host_json) svc "fake-token" post
           _ {| PhotoSize.file_id := "large_photo_id" |} Script.init
           _ tt eq_refl eq_refl eq_refl (or_introl eq_refl)).
Defined.

Lemma channel_post_english_text_witness :
  let svc := Script.services (Normal (Some [Script.guess "en"]))
               (fun _ => Script.unavailable) in
  let post := {| Message.message_id := 123; Message.chat_id := 456;
                 Message.text := Some "Hello world"; Message.photo := None |} in
  channel_post (H:=host_json) svc "fake-token" (Some post) Script.init
  = (Normal tt, mkMachine tt ([] ++ [Detect "Hello world"])).
Proof.
  intros svc post.
  exact (channel_post_english_text (H:=host_json) svc "fake-token" post
           "Hello world" Script.init (Script.guess "en") [] tt
           eq_refl eq_refl eq_refl eq_refl eq_refl).
Defined.

Lemma isEnglish_no_choice_witness :
  let svc := Script.services (Normal None)
               (fun _ => Normal {| ChatCompletion.choices := [] |}) in
  isEnglish svc "Bonjour" Script.init
  = (Normal true,
     mkMachine tt
       ([] ++ [Detect "Bonjour"; ChatCreate (ClassifyRequest "Bonjour");
               ConsoleError "Error detecting language:"])).
Proof.
  exact (isEnglish_no_choice
           (Script.services (Normal None)
              (fun _ => Normal {| ChatCompletion.choices := [] |}))
           "Bonjour" Script.init None tt tt eq_refl eq_refl eq_refl).
Defined.
